(** * ros_pybullet_interface: the node's object registry and service handlers

    A shallow embedding of [scripts/ros_pybullet_interface_node.py]:
    the option parser [Node.parse_options], the registry class
    [PybulletObjects] and the five service handlers of [Node].

    Python values are an inductive type, exceptions are data, and every
    statement that can raise returns a [result].  Code that touches the node
    or the simulator runs in a state-and-exception monad over [State]: a raise
    keeps the effects made before it, as in Python. *)

From Stdlib Require Import ZArith String Ascii List Lia.
From Stdlib Require Import Floats.PrimFloat.
From stdpp Require Import base option list gmap strings pretty.

Set Warnings "-inexact-float,-register-all".
Local Open Scope Z_scope.
Local Open Scope string_scope.

(** ** Python values and exceptions *)

(** The values that reach this file: ints (unbounded, hence [Z]), strings,
    floats (binary64), [None] and lists of these. *)
Inductive pyval : Type :=
| PyInt (n : Z)
| PyStr (s : string)
| PyFloat (f : float)
| PyNone
| PyList (l : list pyval).

(** Exception classes.  The first five are the built-ins this file raises or
    meets; the others are the failure kinds of the collaborators (the object
    classes of [rpbi], the config loader, the simulator). *)
Inductive exc_class : Type :=
| KeyError
| IndexError
| ValueError
| AttributeError
| TypeError
| UnsupportedOperation
| InvalidLinkIndex
| ConfigLoadError
| BackendConstructError
| BackendCallError.

Record exception : Type := Exc { exc_type : exc_class; exc_arg : string }.

Inductive result (A : Type) : Type :=
| Returned (a : A)
| Raised (e : exception).
Arguments Returned {A} a.
Arguments Raised {A} e.

#[global] Instance exc_class_eq_dec : EqDecision exc_class.
Proof. solve_decision. Defined.

#[global] Instance result_fmap : FMap result := fun _ _ f m =>
  match m with
  | Returned a => Returned (f a)
  | Raised e => Raised e
  end.
#[global] Instance result_ret : MRet result := fun _ a => Returned a.
#[global] Instance result_bind : MBind result := fun _ _ f m =>
  match m with
  | Returned a => f a
  | Raised e => Raised e
  end.

Definition is_KeyError (e : exception) : bool :=
  match exc_type e with KeyError => true | _ => false end.

(** ** Strings *)

Definition dquote : string := String "034"%char EmptyString.

(** [s.split(sep)] for a one-character separator: the pieces between the
    occurrences of [sep], so a string without [sep] is its own single piece
    and the empty string gives one empty piece. *)
Fixpoint split (sep : ascii) (s : string) : list string :=
  match s with
  | EmptyString => [EmptyString]
  | String c s' =>
      if Ascii.eqb c sep then EmptyString :: split sep s'
      else match split sep s' with
           | w :: ws => String c w :: ws
           | [] => [String c EmptyString]
           end
  end.

(** [sep not in s] *)
Fixpoint lacks (sep : ascii) (s : string) : bool :=
  match s with
  | EmptyString => true
  | String c s' => negb (Ascii.eqb c sep) && lacks sep s'
  end.

(** [sep.join(pieces)] *)
Fixpoint join (sep : string) (pieces : list string) : string :=
  match pieces with
  | [] => EmptyString
  | [piece] => piece
  | piece :: rest => piece ++ sep ++ join sep rest
  end.

(** ** Node.parse_options *)

Module Options.
Section WithNamespace.

(** The attributes of the [pybullet] module, read by
    [getattr(pybullet, opt)]. *)
Variable pybullet_attrs : gmap string pyval.

Definition getattr_pybullet (opt : pyval) : result pyval :=
  match opt with
  | PyStr name =>
      match pybullet_attrs !! name with
      | Some v => Returned v
      | None => Raised (Exc AttributeError
                  ("module 'pybullet' has no attribute '" ++ name ++ "'"))
      end
  | _ => Raised (Exc TypeError "attribute name must be string")
  end.

Definition isinstance_str (el : pyval) : bool :=
  match el with PyStr _ => true | _ => false end.

Definition isinstance_int (el : pyval) : bool :=
  match el with PyInt _ => true | _ => false end.

(** [for el in ls]: lists give their elements, strings their characters,
    anything else here is not iterable. *)
Definition iter (ls : pyval) : result (list pyval) :=
  match ls with
  | PyList l => Returned l
  | PyStr s => Returned (map (fun c => PyStr (String c EmptyString)) (list_ascii_of_string s))
  | PyInt _ => Raised (Exc TypeError "'int' object is not iterable")
  | PyFloat _ => Raised (Exc TypeError "'float' object is not iterable")
  | PyNone => Raised (Exc TypeError "'NoneType' object is not iterable")
  end.

(** [all(isinstance(el, str) for el in ls)] *)
Definition is_list_str (ls : pyval) : result bool :=
  els ← iter ls; mret (forallb isinstance_str els).

(** [all(isinstance(el, int) for el in ls)] *)
Definition is_list_int (ls : pyval) : result bool :=
  els ← iter ls; mret (forallb isinstance_int els).

(** [[getattr(pybullet, opt) for opt in options]]: the first failing lookup
    raises. *)
Fixpoint getattr_each (opts : list pyval) : result (list pyval) :=
  match opts with
  | [] => Returned []
  | opt :: rest =>
      v ← getattr_pybullet opt;
      vs ← getattr_each rest;
      mret (v :: vs)
  end.

(** [out |= opt] *)
Definition ior (out opt : pyval) : result pyval :=
  match out, opt with
  | PyInt a, PyInt b => Returned (PyInt (Z.lor a b))
  | _, _ => Raised (Exc TypeError "unsupported operand type(s) for |=")
  end.

(** [for opt in rest: out |= opt] *)
Fixpoint ior_all (out : pyval) (rest : list pyval) : result pyval :=
  match rest with
  | [] => Returned out
  | opt :: rest' => out' ← ior out opt; ior_all out' rest'
  end.

Definition parse_options (options : pyval) : result pyval :=
  match options with
  | PyInt _ => Returned options
  | _ =>
      let options :=
        match options with
        | PyStr s => PyList (map PyStr (split "|" s))
        | _ => options
        end in
      strs ← is_list_str options;
      options ← (if strs : bool
                 then els ← iter options; vs ← getattr_each els; mret (PyList vs)
                 else mret options);
      ints ← is_list_int options;
      if ints : bool then
        els ← iter options;
        match els with
        | [] => Raised (Exc IndexError "list index out of range")
        | out :: rest => ior_all out rest
        end
      else Raised (Exc ValueError "did not recognize options type!")
  end.

End WithNamespace.
End Options.

(** ** The collaborators

    The node drives code that lives outside this file: the object classes of
    [rpbi], the [pybullet] module and the config loader of
    [custom_ros_tools].  They are an interface here; the handlers are written
    against it, and what is proved of a handler for every implementation holds
    whatever these classes do. *)

(** The classes handed to [PybulletObjects.add] as [object_type]. *)
Inductive object_class : Type :=
| PybulletVisualObject
| PybulletCollisionObject
| PybulletDynamicObject
| PybulletRobot
| PybulletSoftBodyObject
| PybulletURDF
| PybulletRGBDSensor.

#[global] Instance object_class_eq_dec : EqDecision object_class.
Proof. solve_decision. Defined.

Class Rpbi : Type := {
  (** everything the simulator and the objects own: bodies, poses, dynamics *)
  pybullet : Type;
  (** a reference to an object built by one of the classes *)
  object : Type;
  (** [isinstance(object, cls)] *)
  isinstance : object -> object_class -> bool;
  (** [object_type(pybullet, node, config)] *)
  construct : object_class -> gmap string string -> pybullet -> result object * pybullet;
  (** [object.destroy()] *)
  destroy : object -> pybullet -> result unit * pybullet;
  (** [object.get_dynamics(link_index=...)] *)
  get_dynamics : object -> Z -> pybullet -> result (gmap string pyval) * pybullet;
  (** [object.change_dynamics(object_dynamics, link_index=...)] *)
  change_dynamics : object -> gmap string pyval -> Z -> pybullet -> result unit * pybullet;
  (** the attributes [object.basePosition], [object.baseOrientation] and
      [object.body_unique_id] *)
  basePosition : object -> pybullet -> result pyval;
  baseOrientation : object -> pybullet -> result pyval;
  body_unique_id : object -> pybullet -> result pyval;
  (** [pybullet.resetBasePositionAndOrientation(id, position, orientation)] *)
  resetBasePositionAndOrientation : pyval -> pyval -> pyval -> pybullet -> result unit * pybullet;
  (** [pybullet_instance.close()] *)
  disconnect : pybullet -> result unit * pybullet;
  (** [load_config(filename)] and [load_configs(text)] *)
  load_config : string -> result (gmap string string);
  load_configs : string -> result (gmap string string);
  (** [str(err)] *)
  str : exception -> string
}.

(** ** Messages and services *)

(** Modelled from the spec: the constants of [PybulletObject.msg], whose file
    is not part of the sources; the spec gives the codes 0 to 5. *)
Definition VISUAL : Z := 0.
Definition COLLISION : Z := 1.
Definition DYNAMIC : Z := 2.
Definition ROBOT : Z := 3.
Definition SOFT : Z := 4.
Definition URDF : Z := 5.

Record PybulletObject : Type := {
  object_type : Z;
  filename : string;
  config : string
}.

Record ObjectDynamics : Type := {
  mass : pyval;
  lateral_friction : pyval;
  local_inertia_diagonal : pyval;
  restitution : pyval;
  rolling_friction : pyval;
  spinning_friction : pyval;
  contact_damping : pyval;
  contact_stiffness : pyval;
  collision_margin : pyval
}.

(** A freshly made [ObjectDynamics()].  A ROS message has no unset fields: one
    the client does not give holds the default of its type, zero. *)
Definition ObjectDynamics_default : ObjectDynamics := {|
  mass := PyFloat 0;
  lateral_friction := PyFloat 0;
  local_inertia_diagonal := PyList [PyFloat 0; PyFloat 0; PyFloat 0];
  restitution := PyFloat 0;
  rolling_friction := PyFloat 0;
  spinning_friction := PyFloat 0;
  contact_damping := PyFloat 0;
  contact_stiffness := PyFloat 0;
  collision_margin := PyFloat 0
|}.

Record AddPybulletObjectRequest : Type := { pybullet_object : PybulletObject }.
Record SetStringRequest : Type := { data : string }.
Record GetObjectDynamicsRequest : Type := {
  gd_object_name : string;
  gd_link_idx : Z
}.
Record GetObjectPositionRequest : Type := {
  gp_object_name : string;
  gp_link_idx : Z
}.
Record ChangeObjectDynamicsRequest : Type := {
  cd_object_name : string;
  cd_link_idx : Z;
  cd_object_dynamics : ObjectDynamics
}.

(** [AddPybulletObjectResponse], [SetStringResponse] and
    [ChangeObjectDynamicsResponse] carry the same two fields. *)
Record Response : Type := { success : bool; message : string }.

Record GetObjectDynamicsResponse : Type := {
  gd_success : bool;
  gd_message : string;
  object_dynamics : option ObjectDynamics
}.

(** Modelled from the spec: the pose fields of [GetObjectPosition.srv], whose
    file is not part of the sources.  A field the handler does not pass to the
    constructor stays [None]. *)
Record GetObjectPositionResponse : Type := {
  gp_success : bool;
  gp_message : string;
  position : option pyval;
  orientation : option pyval
}.

(** ** The node's state and its monad *)

Inductive log_level : Type := INFO | WARN | ERROR.

Inductive log_arg `{Rpbi} : Type :=
| LogStr (s : string)
| LogVal (v : pyval)
| LogDir (o : object)
| LogTraceback (e : exception).

Record State `{Rpbi} : Type := {
  counter : Z;
  pybullet_objects : gmap string object;
  pb : pybullet;
  rosout : list (log_level * log_arg)
}.

Section Node.
Context `{Rpbi}.

Definition M (A : Type) : Type := State -> result A * State.

#[global] Instance M_ret : MRet M := fun _ a st => (Returned a, st).
#[global] Instance M_bind : MBind M := fun _ _ f m st =>
  match m st with
  | (Returned a, st') => f a st'
  | (Raised e, st') => (Raised e, st')
  end.

Definition raise {A} (e : exception) : M A := fun st => (Raised e, st).

(** [try: body / except Exception as err: handler err] *)
Definition try_except {A} (body : M A) (handler : exception -> M A) : M A :=
  fun st =>
    match body st with
    | (Returned a, st') => (Returned a, st')
    | (Raised e, st') => handler e st'
    end.

Definition lift {A} (r : result A) : M A := fun st => (r, st).

Definition gets {A} (f : State -> A) : M A := fun st => (Returned (f st), st).

Definition modify (f : State -> State) : M unit := fun st => (Returned tt, f st).

Definition set_pb (w : pybullet) (st : State) : State :=
  {| counter := counter st; pybullet_objects := pybullet_objects st;
     pb := w; rosout := rosout st |}.

Definition set_objects (m : gmap string object) (st : State) : State :=
  {| counter := counter st; pybullet_objects := m;
     pb := pb st; rosout := rosout st |}.

Definition set_counter (n : Z) (st : State) : State :=
  {| counter := n; pybullet_objects := pybullet_objects st;
     pb := pb st; rosout := rosout st |}.

Definition append_log (l : log_level * log_arg) (st : State) : State :=
  {| counter := counter st; pybullet_objects := pybullet_objects st;
     pb := pb st; rosout := rosout st ++ [l] |}.

(** a call into the simulator or an object *)
Definition call {A} (f : pybullet -> result A * pybullet) : M A :=
  fun st => let (r, w) := f (pb st) in (r, set_pb w st).

(** an attribute read *)
Definition attr {A} (f : pybullet -> result A) : M A :=
  fun st => (f (pb st), st).

Definition log (lvl : log_level) (a : log_arg) : M unit :=
  fun st => (Returned tt, append_log (lvl, a) st).

Definition loginfo := log INFO.
Definition logwarn := log WARN.
Definition logerr := log ERROR.

(** [Node.print_exc] *)
Definition print_exc (err : exception) : M unit := logerr (LogTraceback err).

(** [d[key]] on a plain dict *)
Definition dict_getitem {V} (d : gmap string V) (key : string) : result V :=
  match d !! key with
  | Some v => Returned v
  | None => Raised (Exc KeyError key)
  end.

End Node.

(** ** class PybulletObjects(dict) *)

Module PybulletObjects.
Section Registry.
Context `{Rpbi}.

Definition already_exists (name : string) : exception :=
  Exc KeyError (name ++ " already exists, pybullet objects must be given unique names!").

(** [name in self] *)
Definition contains (name : string) : M bool :=
  fun st => (Returned (bool_decide (is_Some (pybullet_objects st !! name))), st).

(** [self[name]]: [dict.__getitem__], not overridden *)
Definition getitem (name : string) : M object :=
  fun st => (dict_getitem (pybullet_objects st) name, st).

(** [__setitem__] *)
Definition setitem (name : string) (obj : object) : M unit :=
  present ← contains name;
  if present : bool then raise (already_exists name)
  else modify (fun st => set_objects (<[name := obj]> (pybullet_objects st)) st).

(** [add] *)
Definition add (config : gmap string string) (object_type : object_class) : M unit :=
  name ← lift (dict_getitem config "name");
  present ← contains name;
  if present : bool then raise (already_exists name)
  else
    obj ← call (construct object_type config);
    setitem name obj.

(** [super().__delitem__(name)]: [dict.__delitem__] *)
Definition dict_delitem (name : string) : M unit :=
  fun st =>
    match pybullet_objects st !! name with
    | Some _ => (Returned tt, set_objects (delete name (pybullet_objects st)) st)
    | None => (Raised (Exc KeyError name), st)
    end.

(** [__delitem__]: [self[name].destroy()], then [super().__delitem__(name)] *)
Definition delitem (name : string) : M unit :=
  obj ← getitem name;
  _ ← call (destroy obj);
  dict_delitem name.

End Registry.
End PybulletObjects.

(** ** class Node(RosNode): the service handlers *)

Section Services.
Context `{Rpbi}.

(** the [if]/[elif] chain on [req.pybullet_object.object_type] *)
Definition resolve_object_type (code : Z) : option object_class :=
  if decide (code = VISUAL) then Some PybulletVisualObject
  else if decide (code = COLLISION) then Some PybulletCollisionObject
  else if decide (code = DYNAMIC) then Some PybulletDynamicObject
  else if decide (code = ROBOT) then Some PybulletRobot
  else if decide (code = SOFT) then Some PybulletSoftBodyObject
  else if decide (code = URDF) then Some PybulletURDF
  else None.

(** the body shared by the two [try] blocks of [service_add_pybullet_object] *)
Definition try_add (loaded : result (gmap string string)) (object_type : object_class)
    : M Response :=
  try_except
    (config ← lift loaded;
     _ ← PybulletObjects.add config object_type;
     mret {| success := true; message := "added pybullet object" |})
    (fun err =>
       let message := str err in
       _ ← print_exc err;
       _ ← logerr (LogStr message);
       mret {| success := false; message := message |}).

Definition service_add_pybullet_object (req : AddPybulletObjectRequest) : M Response :=
  let po := pybullet_object req in
  match resolve_object_type (object_type po) with
  | None =>
      let message :=
        "did not recognize object type, given '" ++ pretty (object_type po)
        ++ "', expected either 0, 1, 2, 3. See PybulletObject.msg" in
      _ ← logerr (LogStr message);
      mret {| success := false; message := message |}
  | Some object_type =>
      if negb (String.eqb (filename po) "") then
        try_add (load_config (filename po)) object_type
      else if negb (String.eqb (config po) "") then
        try_add (load_configs (config po)) object_type
      else
        mret {| success := false;
                message := "failed to add pybullet object, neither filename of config was given in request!" |}
  end.

Definition hi_im_here : string := "hi im here*************************************".

(** the [isinstance] chain of the three object handlers; only its [else]
    branch does anything, and only where [noisy] *)
Definition object_type_message (obj : object) (message : string) (noisy : bool) : M string :=
  if isinstance obj PybulletCollisionObject then mret message
  else if isinstance obj PybulletDynamicObject then mret message
  else if noisy then (_ ← logerr (LogStr hi_im_here); mret hi_im_here)
  else mret message.

Definition service_get_pybullet_object_dynamics (req : GetObjectDynamicsRequest)
    : M GetObjectDynamicsResponse :=
  present ← PybulletObjects.contains (gd_object_name req);
  if negb present then
    let message := "did not recognize object name (get dynamics)" in
    _ ← logerr (LogStr message);
    mret {| gd_success := false; gd_message := message; object_dynamics := None |}
  else
    obj ← PybulletObjects.getitem (gd_object_name req);
    let link_idx := gd_link_idx req in
    message ← object_type_message obj "got pybullet object dynamics" true;
    _ ← logerr (LogDir obj);
    d ← call (get_dynamics obj link_idx);
    v_mass ← lift (dict_getitem d "mass");
    v_lateral ← lift (dict_getitem d "lateralFriction");
    v_inertia ← lift (dict_getitem d "localInertiaDiagonal");
    v_restitution ← lift (dict_getitem d "restitution");
    v_rolling ← lift (dict_getitem d "rollingFriction");
    v_spinning ← lift (dict_getitem d "spinningFriction");
    v_damping ← lift (dict_getitem d "contactDamping");
    v_stiffness ← lift (dict_getitem d "contactStiffness");
    v_margin ← lift (dict_getitem d "collisionMargin");
    let object_dynamics_msg := {|
      mass := v_mass;
      lateral_friction := v_lateral;
      local_inertia_diagonal := v_inertia;
      restitution := v_restitution;
      rolling_friction := v_rolling;
      spinning_friction := v_spinning;
      contact_damping := v_damping;
      contact_stiffness := v_stiffness;
      collision_margin := v_margin |} in
    mret {| gd_success := true; gd_message := message;
            object_dynamics := Some object_dynamics_msg |}.

Definition new_position : pyval := PyList [PyFloat 0.6; PyFloat 0.2; PyFloat (-0.09)].
Definition new_orientation : pyval := PyList [PyInt 0; PyInt 0; PyFloat 0.707; PyFloat (-0.707)].

Definition service_get_pybullet_object_position (req : GetObjectPositionRequest)
    : M GetObjectPositionResponse :=
  present ← PybulletObjects.contains (gp_object_name req);
  if negb present then
    let message := "did not recognize object name (get position)" in
    _ ← logerr (LogStr message);
    mret {| gp_success := false; gp_message := message;
            position := None; orientation := None |}
  else
    obj ← PybulletObjects.getitem (gp_object_name req);
    message ← object_type_message obj "got pybullet object position" true;
    current_position ← attr (basePosition obj);
    current_orientation ← attr (baseOrientation obj);
    id ← attr (body_unique_id obj);
    _ ← call (resetBasePositionAndOrientation id new_position new_orientation);
    n ← gets counter;
    _ ← logwarn (LogVal (PyInt n));
    _ ← logwarn (LogVal current_position);
    _ ← logwarn (LogVal current_orientation);
    _ ← modify (fun st => set_counter (counter st + 1) st);
    mret {| gp_success := true; gp_message := message;
            position := None; orientation := None |}.

(** the dict built field by field from [req.object_dynamics] *)
Definition dynamics_dict (msg : ObjectDynamics) : gmap string pyval :=
  <["collisionMargin" := collision_margin msg]>
  (<["contactStiffness" := contact_stiffness msg]>
  (<["contactDamping" := contact_damping msg]>
  (<["spinningFriction" := spinning_friction msg]>
  (<["rollingFriction" := rolling_friction msg]>
  (<["restitution" := restitution msg]>
  (<["localInertiaDiagonal" := local_inertia_diagonal msg]>
  (<["lateralFriction" := lateral_friction msg]>
  (<["mass" := mass msg]> ∅)))))))).

(** the keys that [service_get_pybullet_object_dynamics] reads, in the order
    it reads them *)
Definition dynamics_keys : list string :=
  ["mass"; "lateralFriction"; "localInertiaDiagonal"; "restitution"; "rollingFriction";
   "spinningFriction"; "contactDamping"; "contactStiffness"; "collisionMargin"].

Definition service_change_pybullet_object_dynamics (req : ChangeObjectDynamicsRequest)
    : M Response :=
  present ← PybulletObjects.contains (cd_object_name req);
  if negb present then
    let message := "did not recognize object name (change dynamics)" in
    _ ← logerr (LogStr message);
    mret {| success := false; message := message |}
  else
    obj ← PybulletObjects.getitem (cd_object_name req);
    message ← object_type_message obj "changed pybullet object dynamics" false;
    let link_idx := cd_link_idx req in
    let object_dynamics := dynamics_dict (cd_object_dynamics req) in
    _ ← call (change_dynamics obj object_dynamics link_idx);
    mret {| success := true; message := message |}.

Definition service_remove_pybullet_object (req : SetStringRequest) : M Response :=
  let name := data req in
  r ← try_except
        (_ ← PybulletObjects.delitem name;
         mret {| success := true; message := "removed pybullet object" |})
        (fun e =>
           if is_KeyError e then
             mret {| success := false;
                     message := "given object " ++ dquote ++ name ++ dquote ++ " does not exist!" |}
           else
             _ ← print_exc e;
             mret {| success := false;
                     message := "failed to remove Pybullet object, exception: " ++ str e |});
  _ ← (if success r then loginfo (LogStr (message r)) else logerr (LogStr (message r)));
  mret r.

(** The [while] loop of [close], run for at most [fuel] rounds.  A round takes
    the first key and deletes it; which key is first depends on insertion
    order, which the map does not keep, so the first key of the map's listing
    stands for it.  The loop answers [true] when it left because the registry
    was empty, [false] when the rounds ran out. *)
Fixpoint close_loop (fuel : nat) : M bool :=
  keys ← gets (fun st => (map_to_list (pybullet_objects st)).*1);
  match keys with
  | [] => mret true
  | k :: _ =>
      match fuel with
      | O => mret false
      | S fuel' => _ ← PybulletObjects.delitem k; close_loop fuel'
      end
  end.

(** [close]: as many rounds as there are objects are enough, since a round
    that does not raise removes one. *)
Definition close : M unit :=
  n ← gets (fun st => size (pybullet_objects st));
  _ ← close_loop n;
  call disconnect.

(** [add_list], the helper of [__init__] that registers the objects listed in
    the node's config: one [load_config] and one [add] per filename, in
    order, with nothing caught. *)
Fixpoint add_list (filenames : list string) (object_type : object_class) : M unit :=
  match filenames with
  | [] => mret tt
  | filename :: rest =>
      config ← lift (load_config filename);
      _ ← PybulletObjects.add config object_type;
      add_list rest object_type
  end.

End Services.

(** ** A reference implementation of the collaborators *)

Module Reference.

Record body : Type := {
  base_position : pyval;
  base_orientation : pyval;
  links : gmap Z (gmap string pyval)
}.

Record world : Type := { bodies : gmap Z body; next_id : Z }.

Record handle : Type := { class_of : object_class; body_id : Z }.

(** Modelled from the spec: which kinds have link-indexed dynamics; the
    classes of [rpbi] are not part of the sources.  The spec names
    Collision, Dynamic and Robot. *)
Definition supports_dynamics (c : object_class) : bool :=
  match c with
  | PybulletCollisionObject | PybulletDynamicObject | PybulletRobot => true
  | _ => false
  end.

Definition unsupported : exception :=
  Exc UnsupportedOperation "this kind of object has no link dynamics".
Definition no_body : exception := Exc BackendCallError "no such body".
Definition no_link : exception := Exc InvalidLinkIndex "no such link".

(** the link's properties, after the checks [get_dynamics] and
    [change_dynamics] share *)
Definition find_link (o : handle) (link_index : Z) (w : world)
    : result (body * gmap string pyval) :=
  if supports_dynamics (class_of o) then
    match bodies w !! body_id o with
    | None => Raised no_body
    | Some b =>
        match links b !! link_index with
        | None => Raised no_link
        | Some d => Returned (b, d)
        end
    end
  else Raised unsupported.

(** Modelled from the spec: [get_dynamics(link_index)] of the absent object
    classes; it reads the link's current values and fails with
    UnsupportedOperation on a kind without link dynamics. *)
Definition get_dynamics (o : handle) (link_index : Z) (w : world)
    : result (gmap string pyval) * world :=
  match find_link o link_index w with
  | Returned (_, d) => (Returned d, w)
  | Raised e => (Raised e, w)
  end.

(** Modelled from the spec: [change_dynamics(properties, link_index)] of the
    absent object classes; it writes the supplied fields for the link and
    leaves the others, and fails with UnsupportedOperation or
    InvalidLinkIndex without writing. *)
Definition change_dynamics (o : handle) (properties : gmap string pyval)
    (link_index : Z) (w : world) : result unit * world :=
  match find_link o link_index w with
  | Returned (b, d) =>
      let b' := {| base_position := base_position b;
                   base_orientation := base_orientation b;
                   links := <[link_index := properties ∪ d]> (links b) |} in
      (Returned tt, {| bodies := <[body_id o := b']> (bodies w); next_id := next_id w |})
  | Raised e => (Raised e, w)
  end.

(** Modelled from the spec: [destroy()] releases the backend handle; on a
    handle that is no longer live the backend call fails. *)
Definition destroy (o : handle) (w : world) : result unit * world :=
  match bodies w !! body_id o with
  | Some _ => (Returned tt, {| bodies := delete (body_id o) (bodies w); next_id := next_id w |})
  | None => (Raised no_body, w)
  end.

Definition default_dynamics : gmap string pyval :=
  <["collisionMargin" := PyFloat 0.04]>
  (<["contactStiffness" := PyFloat (-1)]>
  (<["contactDamping" := PyFloat (-1)]>
  (<["spinningFriction" := PyFloat 0]>
  (<["rollingFriction" := PyFloat 0]>
  (<["restitution" := PyFloat 0]>
  (<["localInertiaDiagonal" := PyList [PyFloat 1; PyFloat 1; PyFloat 1]]>
  (<["lateralFriction" := PyFloat 0.5]>
  (<["mass" := PyFloat 1]> ∅)))))))).

Definition origin : pyval := PyList [PyFloat 0; PyFloat 0; PyFloat 0].
Definition identity : pyval := PyList [PyFloat 0; PyFloat 0; PyFloat 0; PyFloat 1].

(** Modelled from the spec: construct-from-config of the absent object
    classes; a new body at the origin with one link, 0, under a fresh
    handle. *)
Definition construct (c : object_class) (config : gmap string string) (w : world)
    : result handle * world :=
  let b := {| base_position := origin; base_orientation := identity;
              links := {[ 0 := default_dynamics ]} |} in
  (Returned {| class_of := c; body_id := next_id w |},
   {| bodies := <[next_id w := b]> (bodies w); next_id := next_id w + 1 |}).

(** Modelled from the spec: the pose every kind keeps ([get_pose]). *)
Definition basePosition (o : handle) (w : world) : result pyval :=
  match bodies w !! body_id o with
  | Some b => Returned (base_position b)
  | None => Raised no_body
  end.

Definition baseOrientation (o : handle) (w : world) : result pyval :=
  match bodies w !! body_id o with
  | Some b => Returned (base_orientation b)
  | None => Raised no_body
  end.

Definition body_unique_id (o : handle) (w : world) : result pyval :=
  Returned (PyInt (body_id o)).

(** pybullet's call of that name: the body's base pose becomes the given one *)
Definition resetBasePositionAndOrientation (id position orientation : pyval) (w : world)
    : result unit * world :=
  match id with
  | PyInt n =>
      match bodies w !! n with
      | Some b =>
          let b' := {| base_position := position; base_orientation := orientation;
                       links := links b |} in
          (Returned tt, {| bodies := <[n := b']> (bodies w); next_id := next_id w |})
      | None => (Raised no_body, w)
      end
  | _ => (Raised (Exc TypeError "an integer is required"), w)
  end.

(** disconnecting forgets every body *)
Definition disconnect (w : world) : result unit * world :=
  (Returned tt, {| bodies := ∅; next_id := next_id w |}).

(** a loader with no files, for which a config text is the object's name *)
Definition load_config (filename : string) : result (gmap string string) :=
  Raised (Exc ConfigLoadError ("cannot read " ++ filename)).
Definition load_configs (text : string) : result (gmap string string) :=
  Returned {[ "name" := text ]}.

(** [str(err)]: a [KeyError] shows its argument quoted *)
Definition str (e : exception) : string :=
  match exc_type e with
  | KeyError => "'" ++ exc_arg e ++ "'"
  | _ => exc_arg e
  end.

Definition isinstance (o : handle) (c : object_class) : bool :=
  bool_decide (class_of o = c).

#[global] Instance rpbi : Rpbi :=
  Build_Rpbi world handle isinstance construct destroy get_dynamics change_dynamics
    basePosition baseOrientation body_unique_id resetBasePositionAndOrientation
    disconnect load_config load_configs str.

End Reference.

(** ** Example data *)

(** A few of pybullet's URDF flags, and one attribute that is not a flag. *)
Definition sample_attrs : gmap string pyval :=
  <[ "URDF_USE_INERTIA_FROM_FILE" := PyInt 2 ]>
  (<[ "URDF_USE_SELF_COLLISION" := PyInt 8 ]>
  (<[ "connect" := PyNone ]> ∅)).

(** A scene for the examples: a collision box and a visual marker with live
    bodies, and a dynamic object whose body the simulator no longer has. *)
Definition box1 : Reference.handle :=
  {| Reference.class_of := PybulletCollisionObject; Reference.body_id := 0 |}.
Definition marker : Reference.handle :=
  {| Reference.class_of := PybulletVisualObject; Reference.body_id := 1 |}.
Definition ghost : Reference.handle :=
  {| Reference.class_of := PybulletDynamicObject; Reference.body_id := 7 |}.

Definition resting : Reference.body := {|
  Reference.base_position := PyList [PyFloat 0; PyFloat 0; PyFloat 0.5];
  Reference.base_orientation := Reference.identity;
  Reference.links := {[ 0 := Reference.default_dynamics ]}
|}.

Definition scene : @State Reference.rpbi := {|
  counter := 0;
  pybullet_objects := <["box1" := box1]> (<["marker" := marker]> (<["ghost" := ghost]> ∅));
  pb := {| Reference.bodies := <[0 := resting]> (<[1 := resting]> ∅);
           Reference.next_id := 2 |};
  rosout := []
|}.

(** a node that has no objects yet *)
Definition fresh : @State Reference.rpbi := {|
  counter := 0;
  pybullet_objects := ∅;
  pb := {| Reference.bodies := ∅; Reference.next_id := 0 |};
  rosout := []
|}.

(** the message that carries the dynamics a new reference body starts with *)
Definition default_message : ObjectDynamics := {|
  mass := PyFloat 1;
  lateral_friction := PyFloat 0.5;
  local_inertia_diagonal := PyList [PyFloat 1; PyFloat 1; PyFloat 1];
  restitution := PyFloat 0;
  rolling_friction := PyFloat 0;
  spinning_friction := PyFloat 0;
  contact_damping := PyFloat (-1);
  contact_stiffness := PyFloat (-1);
  collision_margin := PyFloat 0.04
|}.

(** a scene whose one body reports a mass for link 0 and nothing else *)
Definition sparse : @State Reference.rpbi := {|
  counter := 0;
  pybullet_objects := {[ "box1" := box1 ]};
  pb := {| Reference.bodies :=
             {[ 0 := {| Reference.base_position := Reference.origin;
                        Reference.base_orientation := Reference.identity;
                        Reference.links := {[ 0 := {[ "mass" := PyFloat 1 ]} ]} |} ]};
           Reference.next_id := 1 |};
  rosout := []
|}.

(** [ObjectDynamics(mass=m)]: a message of which the client set the mass only *)
Definition mass_only (m : pyval) : ObjectDynamics := {|
  mass := m;
  lateral_friction := lateral_friction ObjectDynamics_default;
  local_inertia_diagonal := local_inertia_diagonal ObjectDynamics_default;
  restitution := restitution ObjectDynamics_default;
  rolling_friction := rolling_friction ObjectDynamics_default;
  spinning_friction := spinning_friction ObjectDynamics_default;
  contact_damping := contact_damping ObjectDynamics_default;
  contact_stiffness := contact_stiffness ObjectDynamics_default;
  collision_margin := collision_margin ObjectDynamics_default
|}.

(** one property of one link, as the simulator has it *)
Definition link_property (o : Reference.handle) (link_index : Z) (key : string)
    (w : Reference.world) : result pyval :=
  d ← fst (Reference.get_dynamics o link_index w); dict_getitem d key.

(** * Properties of [parse_options] *)

Example split_two : split "|" "A|B" = ["A"; "B"].
Proof. reflexivity. Qed.

Example split_empty : split "|" "" = [""].
Proof. reflexivity. Qed.

Example split_trailing : split "|" "A|" = ["A"; ""].
Proof. reflexivity. Qed.

Section OptionFacts.
Import Options.
Variable attrs : gmap string pyval.

Lemma split_no_sep sep s : lacks sep s = true -> split sep s = [s].
Proof.
  induction s as [|c s IH]; simpl; [reflexivity|].
  intros [Hc Hs]%andb_prop. apply negb_true_iff in Hc.
  rewrite Hc, (IH Hs). reflexivity.
Qed.

Lemma split_at_sep sep a b :
  lacks sep a = true -> split sep (a ++ String sep b) = a :: split sep b.
Proof.
  induction a as [|c a IH]; simpl.
  - intros _. rewrite Ascii.eqb_refl. reflexivity.
  - intros [Hc Ha]%andb_prop. apply negb_true_iff in Hc.
    rewrite Hc, (IH Ha). reflexivity.
Qed.

Lemma forallb_int_ints ns : forallb isinstance_int (map PyInt ns) = true.
Proof. induction ns; simpl; auto. Qed.

Lemma forallb_str_names names : forallb isinstance_str (map PyStr names) = true.
Proof. induction names; simpl; auto. Qed.

Lemma ior_all_ints n ns :
  ior_all (PyInt n) (map PyInt ns) = Returned (PyInt (fold_left Z.lor ns n)).
Proof.
  revert n. induction ns as [|m ns IH]; intros n; simpl; [reflexivity|].
  apply IH.
Qed.

Lemma getattr_each_ints names vs :
  Forall2 (fun name v => attrs !! name = Some (PyInt v)) names vs ->
  getattr_each attrs (map PyStr names) = Returned (map PyInt vs).
Proof.
  induction 1 as [|name v names vs Hv _ IH]; simpl; [reflexivity|].
  rewrite Hv. simpl. rewrite IH. reflexivity.
Qed.

Lemma parse_int n : parse_options attrs (PyInt n) = Returned (PyInt n).
Proof. reflexivity. Qed.

Lemma parse_ints n ns :
  parse_options attrs (PyList (map PyInt (n :: ns)))
  = Returned (PyInt (fold_left Z.lor ns n)).
Proof.
  unfold parse_options, is_list_str, is_list_int. simpl.
  rewrite forallb_int_ints. simpl. apply ior_all_ints.
Qed.

Lemma parse_names name names v vs :
  Forall2 (fun name v => attrs !! name = Some (PyInt v)) (name :: names) (v :: vs) ->
  parse_options attrs (PyList (map PyStr (name :: names)))
  = Returned (PyInt (fold_left Z.lor vs v)).
Proof.
  intros Hall. unfold parse_options, is_list_str, is_list_int.
  cbn [iter mbind result_bind mret result_ret].
  rewrite forallb_str_names.
  rewrite (getattr_each_ints _ _ Hall).
  cbn [iter mbind result_bind mret result_ret].
  rewrite forallb_int_ints. simpl. apply ior_all_ints.
Qed.

Lemma parse_string s :
  parse_options attrs (PyStr s) = parse_options attrs (PyList (map PyStr (split "|" s))).
Proof.
  unfold parse_options.
  destruct (map PyStr (split "|" s)) eqn:E; reflexivity.
Qed.

Lemma parse_neither l :
  forallb isinstance_str l = false ->
  forallb isinstance_int l = false ->
  parse_options attrs (PyList l)
  = Raised (Exc ValueError "did not recognize options type!").
Proof.
  intros Hs Hi. unfold parse_options, is_list_str, is_list_int.
  cbn [iter mbind result_bind mret result_ret].
  rewrite Hs. cbn [iter mbind result_bind mret result_ret].
  rewrite Hi. reflexivity.
Qed.

End OptionFacts.

(** C8: for flag names [A] and [B] (pieces of a pipe-delimited string, so
    free of the pipe) that the pybullet module binds to the integers [a] and
    [b], parsing the string [A|B] and parsing the list [[a, b]] both give
    [a | b], and an integer is returned as it is. *)
Theorem parse_options_or (attrs : gmap string pyval) (A B : string) (a b : Z) :
  lacks "|" A = true ->
  lacks "|" B = true ->
  attrs !! A = Some (PyInt a) ->
  attrs !! B = Some (PyInt b) ->
  Options.parse_options attrs (PyStr (A ++ "|" ++ B)) = Returned (PyInt (Z.lor a b))
  /\ Options.parse_options attrs (PyList [PyInt a; PyInt b]) = Returned (PyInt (Z.lor a b))
  /\ forall n, Options.parse_options attrs (PyInt n) = Returned (PyInt n).
Proof.
  intros HA HB Ha Hb. split; [|split].
  - rewrite parse_string.
    change (A ++ "|" ++ B) with (A ++ String "|" B).
    rewrite (split_at_sep _ _ _ HA), (split_no_sep _ _ HB).
    apply (parse_names attrs A [B] a [b]).
    repeat constructor; assumption.
  - apply (parse_ints attrs a [b]).
  - intros n. apply parse_int.
Qed.

Lemma parse_options_or_witness :
  Options.parse_options sample_attrs
    (PyStr ("URDF_USE_INERTIA_FROM_FILE" ++ "|" ++ "URDF_USE_SELF_COLLISION"))
  = Returned (PyInt (Z.lor 2 8))
  /\ Options.parse_options sample_attrs (PyList [PyInt 2; PyInt 8]) = Returned (PyInt (Z.lor 2 8))
  /\ forall n, Options.parse_options sample_attrs (PyInt n) = Returned (PyInt n).
Proof.
  apply (parse_options_or sample_attrs
           "URDF_USE_INERTIA_FROM_FILE" "URDF_USE_SELF_COLLISION" 2 8);
    vm_compute; reflexivity.
Defined.

(** C9, as the code has it: [parse_options] returns an integer for an integer,
    for a non-empty list of integers, and for a non-empty list of names that
    the pybullet module binds to integers; a string is parsed as the list of
    its pipe-separated pieces; a list that is neither all names nor all
    integers raises ValueError. *)
Theorem parse_options_shapes (attrs : gmap string pyval) :
  (forall n, Options.parse_options attrs (PyInt n) = Returned (PyInt n))
  /\ (forall n ns,
        Options.parse_options attrs (PyList (map PyInt (n :: ns)))
        = Returned (PyInt (fold_left Z.lor ns n)))
  /\ (forall name names v vs,
        Forall2 (fun name v => attrs !! name = Some (PyInt v)) (name :: names) (v :: vs) ->
        Options.parse_options attrs (PyList (map PyStr (name :: names)))
        = Returned (PyInt (fold_left Z.lor vs v)))
  /\ (forall s,
        Options.parse_options attrs (PyStr s)
        = Options.parse_options attrs (PyList (map PyStr (split "|" s))))
  /\ (forall l,
        forallb Options.isinstance_str l = false ->
        forallb Options.isinstance_int l = false ->
        Options.parse_options attrs (PyList l)
        = Raised (Exc ValueError "did not recognize options type!")).
Proof.
  split; [|split; [|split; [|split]]].
  - apply parse_int.
  - apply parse_ints.
  - apply parse_names.
  - apply parse_string.
  - apply parse_neither.
Qed.

Lemma parse_options_shapes_witness :
  Options.parse_options sample_attrs
    (PyList (map PyStr ["URDF_USE_SELF_COLLISION"; "URDF_USE_INERTIA_FROM_FILE"]))
  = Returned (PyInt 10)
  /\ Options.parse_options sample_attrs (PyList [PyStr "URDF_USE_SELF_COLLISION"; PyInt 3])
     = Raised (Exc ValueError "did not recognize options type!").
Proof.
  destruct (parse_options_shapes sample_attrs) as (_ & _ & Hnames & _ & Hmixed).
  split.
  - apply (Hnames "URDF_USE_SELF_COLLISION" ["URDF_USE_INERTIA_FROM_FILE"] 8 [2]).
    repeat constructor.
  - apply Hmixed; reflexivity.
Defined.

(** C9 as stated fails on the empty list, for which no integer is returned:
    the list passes both element tests and [options[0]] raises IndexError. *)
Lemma parse_options_empty_list :
  Options.parse_options sample_attrs (PyList [])
  = Raised (Exc IndexError "list index out of range").
Proof. reflexivity. Qed.

Example parse_unknown_name :
  Options.parse_options sample_attrs (PyStr "URDF_USE_SELF_COLLISION|NO_SUCH_FLAG")
  = Raised (Exc AttributeError "module 'pybullet' has no attribute 'NO_SUCH_FLAG'").
Proof. vm_compute. reflexivity. Qed.

Example parse_none :
  Options.parse_options sample_attrs PyNone
  = Raised (Exc TypeError "'NoneType' object is not iterable").
Proof. reflexivity. Qed.

Example parse_not_a_flag :
  Options.parse_options sample_attrs (PyStr "connect")
  = Raised (Exc ValueError "did not recognize options type!").
Proof. vm_compute. reflexivity. Qed.

(** * Properties of the registry and the handlers, for every implementation
      of the collaborators *)

Section HandlerFacts.
Context `{Rpbi}.
Import PybulletObjects.

Ltac run :=
  unfold mbind, M_bind, mret, M_ret, raise, lift, gets, modify, call, attr,
    try_except, log, logerr, logwarn, loginfo, print_exc; cbn beta iota.

Lemma contains_registered (st : State) name o :
  pybullet_objects st !! name = Some o -> contains name st = (Returned true, st).
Proof.
  intros Ho. unfold contains. rewrite Ho.
  rewrite bool_decide_eq_true_2 by eauto. reflexivity.
Qed.

Lemma contains_absent (st : State) name :
  pybullet_objects st !! name = None -> contains name st = (Returned false, st).
Proof.
  intros Ho. unfold contains. rewrite Ho.
  rewrite bool_decide_eq_false_2; [reflexivity|]. intros [? ?]; discriminate.
Qed.

Lemma getitem_registered (st : State) name o :
  pybullet_objects st !! name = Some o -> getitem name st = (Returned o, st).
Proof. intros Ho. unfold getitem, dict_getitem. rewrite Ho. reflexivity. Qed.

(** [__delitem__] when [destroy] raises: the error goes up and the dict is
    as it was. *)
Lemma delitem_destroy_raises (st : State) name o e w :
  pybullet_objects st !! name = Some o ->
  destroy o (pb st) = (Raised e, w) ->
  delitem name st = (Raised e, set_pb w st).
Proof.
  intros Ho Hd. unfold delitem. run.
  rewrite (getitem_registered _ _ _ Ho), Hd. reflexivity.
Qed.

Lemma delitem_unknown (st : State) name :
  pybullet_objects st !! name = None ->
  delitem name st = (Raised (Exc KeyError name), st).
Proof.
  intros Ho. unfold delitem. run.
  unfold getitem, dict_getitem. rewrite Ho. reflexivity.
Qed.

Lemma delitem_destroyed (st : State) name o w :
  pybullet_objects st !! name = Some o ->
  destroy o (pb st) = (Returned tt, w) ->
  delitem name st = (Returned tt, set_objects (delete name (pybullet_objects st)) (set_pb w st)).
Proof.
  intros Ho Hd. unfold delitem. run.
  rewrite (getitem_registered _ _ _ Ho), Hd.
  unfold dict_delitem. cbn. rewrite Ho. reflexivity.
Qed.

Lemma object_type_message_quiet (st : State) obj message :
  object_type_message obj message false st = (Returned message, st).
Proof.
  unfold object_type_message.
  destruct (isinstance obj PybulletCollisionObject),
           (isinstance obj PybulletDynamicObject); reflexivity.
Qed.

(** The noisy chain at most logs: node counter, registry and simulator stay. *)
Lemma object_type_message_noisy (st : State) obj message :
  exists message' st',
    object_type_message obj message true st = (Returned message', st')
    /\ counter st' = counter st
    /\ pybullet_objects st' = pybullet_objects st
    /\ pb st' = pb st.
Proof.
  unfold object_type_message.
  destruct (isinstance obj PybulletCollisionObject),
           (isinstance obj PybulletDynamicObject); run; eauto 10.
Qed.

(** C6: [add] with a config whose name is already registered raises the
    "already exists" KeyError and leaves the whole state as it was: the
    registry keeps its entries and the simulator is not touched, so nothing
    was constructed. *)
Theorem add_duplicate_name (st : State) (config : gmap string string)
    (object_type : object_class) (name : string) :
  config !! "name" = Some name ->
  is_Some (pybullet_objects st !! name) ->
  add config object_type st = (Raised (already_exists name), st).
Proof.
  intros Hname [o Ho]. unfold add. run.
  unfold dict_getitem. rewrite Hname.
  rewrite (contains_registered _ _ _ Ho). reflexivity.
Qed.

(** C5, as the code has it: when [destroy] raises an error that is not a
    KeyError, RemoveObject answers success=false with the error's text after
    a fixed prefix, and the registry is exactly as before: the name is still
    mapped. *)
Theorem remove_destroy_fails (st : State) (name : string) (o : object)
    (e : exception) (w : pybullet) :
  pybullet_objects st !! name = Some o ->
  destroy o (pb st) = (Raised e, w) ->
  is_KeyError e = false ->
  fst (service_remove_pybullet_object {| data := name |} st)
  = Returned {| success := false;
                message := "failed to remove Pybullet object, exception: " ++ str e |}
  /\ pybullet_objects (snd (service_remove_pybullet_object {| data := name |} st))
     = pybullet_objects st.
Proof.
  intros Ho Hd Hk. unfold service_remove_pybullet_object. run.
  cbn [data]. rewrite (delitem_destroy_raises _ _ _ _ _ Ho Hd), Hk.
  cbn. split; reflexivity.
Qed.

(** A KeyError out of [destroy] is taken for an unknown name. *)
Lemma remove_destroy_raises_KeyError (st : State) name o e w :
  pybullet_objects st !! name = Some o ->
  destroy o (pb st) = (Raised e, w) ->
  is_KeyError e = true ->
  fst (service_remove_pybullet_object {| data := name |} st)
  = Returned {| success := false;
                message := "given object " ++ dquote ++ name ++ dquote ++ " does not exist!" |}
  /\ pybullet_objects (snd (service_remove_pybullet_object {| data := name |} st))
     = pybullet_objects st.
Proof.
  intros Ho Hd Hk. unfold service_remove_pybullet_object. run.
  cbn [data]. rewrite (delitem_destroy_raises _ _ _ _ _ Ho Hd), Hk.
  cbn. split; reflexivity.
Qed.

Lemma remove_unknown_name (st : State) name :
  pybullet_objects st !! name = None ->
  fst (service_remove_pybullet_object {| data := name |} st)
  = Returned {| success := false;
                message := "given object " ++ dquote ++ name ++ dquote ++ " does not exist!" |}
  /\ pybullet_objects (snd (service_remove_pybullet_object {| data := name |} st))
     = pybullet_objects st.
Proof.
  intros Ho. unfold service_remove_pybullet_object. run.
  cbn [data]. rewrite (delitem_unknown _ _ Ho).
  cbn. split; reflexivity.
Qed.

Lemma remove_destroyed (st : State) name o w :
  pybullet_objects st !! name = Some o ->
  destroy o (pb st) = (Returned tt, w) ->
  fst (service_remove_pybullet_object {| data := name |} st)
  = Returned {| success := true; message := "removed pybullet object" |}
  /\ pybullet_objects (snd (service_remove_pybullet_object {| data := name |} st))
     = delete name (pybullet_objects st).
Proof.
  intros Ho Hd. unfold service_remove_pybullet_object. run.
  cbn [data]. rewrite (delitem_destroyed _ _ _ _ Ho Hd).
  cbn. split; reflexivity.
Qed.

(** C7, as the code has it: a ChangeDynamics request for a registered name
    is one call of the object's [change_dynamics] for the requested link,
    with a dict that holds all nine properties of the request message; the
    answer is success unless that call raises, and then the error goes up. *)
Theorem change_dynamics_passes_all_fields (st : State)
    (req : ChangeObjectDynamicsRequest) (o : object) :
  pybullet_objects st !! cd_object_name req = Some o ->
  let msg := cd_object_dynamics req in
  let d := dynamics_dict msg in
  service_change_pybullet_object_dynamics req st
  = (match fst (change_dynamics o d (cd_link_idx req) (pb st)) with
     | Returned _ =>
         Returned {| success := true; message := "changed pybullet object dynamics" |}
     | Raised e => Raised e
     end,
     set_pb (snd (change_dynamics o d (cd_link_idx req) (pb st))) st)
  /\ d !! "mass" = Some (mass msg)
  /\ d !! "lateralFriction" = Some (lateral_friction msg)
  /\ d !! "localInertiaDiagonal" = Some (local_inertia_diagonal msg)
  /\ d !! "restitution" = Some (restitution msg)
  /\ d !! "rollingFriction" = Some (rolling_friction msg)
  /\ d !! "spinningFriction" = Some (spinning_friction msg)
  /\ d !! "contactDamping" = Some (contact_damping msg)
  /\ d !! "contactStiffness" = Some (contact_stiffness msg)
  /\ d !! "collisionMargin" = Some (collision_margin msg).
Proof.
  intros Ho msg d. split.
  - unfold service_change_pybullet_object_dynamics. run.
    rewrite (contains_registered _ _ _ Ho). cbn [negb].
    rewrite (getitem_registered _ _ _ Ho), object_type_message_quiet.
    fold msg. fold d.
    destruct (change_dynamics o d (cd_link_idx req) (pb st)) as [[[]|e] w]; reflexivity.
  - repeat split; reflexivity.
Qed.

(** What GetPosition does for a registered name, whenever it returns: it has
    reset the object's base pose to the two constants, it has counted the
    call, and its answer carries no pose. *)
Lemma get_position_effect (st st' : State) (req : GetObjectPositionRequest)
    (o : object) (resp : GetObjectPositionResponse) :
  pybullet_objects st !! gp_object_name req = Some o ->
  service_get_pybullet_object_position req st = (Returned resp, st') ->
  (exists id,
     body_unique_id o (pb st) = Returned id
     /\ resetBasePositionAndOrientation id new_position new_orientation (pb st)
        = (Returned tt, pb st'))
  /\ counter st' = counter st + 1
  /\ gp_success resp = true
  /\ position resp = None
  /\ orientation resp = None.
Proof.
  intros Ho. unfold service_get_pybullet_object_position. run.
  rewrite (contains_registered _ _ _ Ho). cbn [negb].
  rewrite (getitem_registered _ _ _ Ho).
  destruct (object_type_message_noisy st o "got pybullet object position")
    as (m & st1 & -> & Hc & _ & Hpb).
  destruct (basePosition o (pb st1)) as [p|e]; [|discriminate].
  destruct (baseOrientation o (pb st1)) as [q|e]; [|discriminate].
  destruct (body_unique_id o (pb st1)) as [id|e] eqn:Hid; [|discriminate].
  destruct (resetBasePositionAndOrientation id new_position new_orientation (pb st1))
    as [[[]|e] w] eqn:Hr; [|discriminate].
  intros [= <- <-]. cbn. rewrite <- Hpb, <- Hc. eauto 10.
Qed.

(** GetPosition lets an error of the pose reset out. *)
Lemma get_position_reset_raises (st : State) (req : GetObjectPositionRequest)
    (o : object) p q id e w :
  pybullet_objects st !! gp_object_name req = Some o ->
  basePosition o (pb st) = Returned p ->
  baseOrientation o (pb st) = Returned q ->
  body_unique_id o (pb st) = Returned id ->
  resetBasePositionAndOrientation id new_position new_orientation (pb st) = (Raised e, w) ->
  fst (service_get_pybullet_object_position req st) = Raised e.
Proof.
  intros Ho Hp Hq Hid Hr. unfold service_get_pybullet_object_position. run.
  rewrite (contains_registered _ _ _ Ho). cbn [negb].
  rewrite (getitem_registered _ _ _ Ho).
  destruct (object_type_message_noisy st o "got pybullet object position")
    as (m & st1 & -> & _ & _ & Hpb).
  rewrite Hpb, Hp, Hq, Hid, Hr. reflexivity.
Qed.

(** GetDynamics never answers success=false for a registered name, whatever
    the object is. *)
Lemma get_dynamics_registered_success (st st' : State) (req : GetObjectDynamicsRequest)
    (o : object) (resp : GetObjectDynamicsResponse) :
  pybullet_objects st !! gd_object_name req = Some o ->
  service_get_pybullet_object_dynamics req st = (Returned resp, st') ->
  gd_success resp = true.
Proof.
  intros Ho. unfold service_get_pybullet_object_dynamics. run.
  rewrite (contains_registered _ _ _ Ho). cbn [negb].
  rewrite (getitem_registered _ _ _ Ho).
  destruct (object_type_message_noisy st o "got pybullet object dynamics")
    as (m & st1 & -> & _ & _ & _).
  cbn.
  destruct (get_dynamics o (gd_link_idx req) _) as [[d|e] w]; [|discriminate].
  repeat (match goal with
          | |- context [dict_getitem ?d ?k] =>
              destruct (dict_getitem d k); [|discriminate]
          end).
  intros [= <- _]. reflexivity.
Qed.

(** GetDynamics lets an error of the object's [get_dynamics] out. *)
Lemma get_dynamics_raises (st : State) (req : GetObjectDynamicsRequest) (o : object) e w :
  pybullet_objects st !! gd_object_name req = Some o ->
  get_dynamics o (gd_link_idx req) (pb st) = (Raised e, w) ->
  fst (service_get_pybullet_object_dynamics req st) = Raised e.
Proof.
  intros Ho Hg. unfold service_get_pybullet_object_dynamics. run.
  rewrite (contains_registered _ _ _ Ho). cbn [negb].
  rewrite (getitem_registered _ _ _ Ho).
  destruct (object_type_message_noisy st o "got pybullet object dynamics")
    as (m & st1 & -> & _ & _ & Hpb).
  cbn. rewrite Hpb, Hg. reflexivity.
Qed.

(** ChangeDynamics never answers success=false for a registered name. *)
Lemma change_dynamics_registered_success (st st' : State)
    (req : ChangeObjectDynamicsRequest) (o : object) (resp : Response) :
  pybullet_objects st !! cd_object_name req = Some o ->
  service_change_pybullet_object_dynamics req st = (Returned resp, st') ->
  success resp = true.
Proof.
  intros Ho. unfold service_change_pybullet_object_dynamics. run.
  rewrite (contains_registered _ _ _ Ho). cbn [negb].
  rewrite (getitem_registered _ _ _ Ho), object_type_message_quiet.
  destruct (change_dynamics o _ _ _) as [[[]|e] w]; [|discriminate].
  intros [= <- _]. reflexivity.
Qed.




(** AddObject with a kind code outside 0..5 answers success=false, and
    neither loads a config nor constructs anything: registry, simulator and
    counter are as before. *)
Theorem add_unrecognized_kind (st : State) (po : PybulletObject) :
  object_type po < 0 \/ 5 < object_type po ->
  let r := service_add_pybullet_object {| pybullet_object := po |} st in
  success <$> fst r = Returned false
  /\ pybullet_objects (snd r) = pybullet_objects st
  /\ pb (snd r) = pb st
  /\ counter (snd r) = counter st.
Proof.
  intros Hcode. unfold service_add_pybullet_object. cbn [pybullet_object].
  assert (resolve_object_type (object_type po) = None) as ->.
  { unfold resolve_object_type, VISUAL, COLLISION, DYNAMIC, ROBOT, SOFT, URDF.
    repeat case_decide; try reflexivity; lia. }
  run. cbn. auto.
Qed.

(** AddObject for a config whose name is taken answers success=false with the
    text of the "already exists" error, and registry, simulator and counter
    are as before. *)
Theorem add_handler_duplicate_name (st : State) (po : PybulletObject)
    (cls : object_class) (loaded : gmap string string) (name : string) :
  resolve_object_type (object_type po) = Some cls ->
  filename po = "" ->
  config po <> "" ->
  load_configs (config po) = Returned loaded ->
  loaded !! "name" = Some name ->
  is_Some (pybullet_objects st !! name) ->
  let r := service_add_pybullet_object {| pybullet_object := po |} st in
  fst r = Returned {| success := false; message := str (already_exists name) |}
  /\ pybullet_objects (snd r) = pybullet_objects st
  /\ pb (snd r) = pb st
  /\ counter (snd r) = counter st.
Proof.
  intros Hcls Hfile Hcfg Hload Hname [o Ho].
  unfold service_add_pybullet_object. cbn [pybullet_object].
  rewrite Hcls, Hfile. cbn [String.eqb negb].
  apply String.eqb_neq in Hcfg. rewrite Hcfg. cbn [negb].
  unfold try_add. rewrite Hload. run.
  unfold add. run. unfold dict_getitem. rewrite Hname.
  rewrite (contains_registered _ _ _ Ho). cbn. auto.
Qed.

(** The three object handlers on a name that is not registered: the answer is
    success=false, and registry, simulator and counter are as before. *)
Theorem unknown_name_answers (st : State) (name : string) (link : Z)
    (msg : ObjectDynamics) :
  pybullet_objects st !! name = None ->
  service_get_pybullet_object_dynamics {| gd_object_name := name; gd_link_idx := link |} st
  = (Returned {| gd_success := false;
                 gd_message := "did not recognize object name (get dynamics)";
                 object_dynamics := None |},
     append_log (ERROR, LogStr "did not recognize object name (get dynamics)") st)
  /\ service_get_pybullet_object_position {| gp_object_name := name; gp_link_idx := link |} st
     = (Returned {| gp_success := false;
                    gp_message := "did not recognize object name (get position)";
                    position := None; orientation := None |},
        append_log (ERROR, LogStr "did not recognize object name (get position)") st)
  /\ service_change_pybullet_object_dynamics
       {| cd_object_name := name; cd_link_idx := link; cd_object_dynamics := msg |} st
     = (Returned {| success := false;
                    message := "did not recognize object name (change dynamics)" |},
        append_log (ERROR, LogStr "did not recognize object name (change dynamics)") st).
Proof.
  intros Ho.
  unfold service_get_pybullet_object_dynamics, service_get_pybullet_object_position,
    service_change_pybullet_object_dynamics. run.
  cbn [gd_object_name gp_object_name cd_object_name].
  rewrite (contains_absent _ _ Ho). cbn [negb]. auto.
Qed.





End HandlerFacts.

(** * The handlers on the reference implementation *)

(** C1: GetPosition on the box of the scene succeeds, and afterwards the box
    is no longer where it was: its pose is the pair of constants written in the
    handler, and the node's counter went from 0 to 1. *)
Theorem get_position_overwrites_pose :
  let req := {| gp_object_name := "box1"; gp_link_idx := 0 |} in
  let st' := snd (service_get_pybullet_object_position req scene) in
  Reference.basePosition box1 (pb scene) = Returned (PyList [PyFloat 0; PyFloat 0; PyFloat 0.5])
  /\ Reference.baseOrientation box1 (pb scene) = Returned Reference.identity
  /\ gp_success <$> fst (service_get_pybullet_object_position req scene) = Returned true
  /\ Reference.basePosition box1 (pb st') = Returned new_position
  /\ Reference.baseOrientation box1 (pb st') = Returned new_orientation
  /\ counter scene = 0
  /\ counter st' = 1.
Proof. cbv zeta. repeat apply conj; reflexivity. Qed.

(** C2: GetPosition on the registered box answers success with the message
    only: neither position nor orientation is in the response. *)
Theorem get_position_returns_no_pose :
  fst (service_get_pybullet_object_position
         {| gp_object_name := "box1"; gp_link_idx := 0 |} scene)
  = Returned {| gp_success := true; gp_message := "got pybullet object position";
                position := None; orientation := None |}.
Proof. vm_compute. reflexivity. Qed.

(** C3: on the visual marker, which has no link dynamics, GetDynamics and
    ChangeDynamics do not answer success=false: the object's
    UnsupportedOperation leaves the handler as an exception.  Registry and
    simulator are as before. *)
Theorem dynamics_on_visual_object_raises :
  let get := service_get_pybullet_object_dynamics
               {| gd_object_name := "marker"; gd_link_idx := 0 |} scene in
  let change := service_change_pybullet_object_dynamics
                  {| cd_object_name := "marker"; cd_link_idx := 0;
                     cd_object_dynamics := mass_only (PyFloat 2) |} scene in
  fst get = Raised Reference.unsupported
  /\ fst change = Raised Reference.unsupported
  /\ pybullet_objects (snd get) = pybullet_objects scene
  /\ pb (snd get) = pb scene
  /\ snd change = scene.
Proof. cbv zeta. repeat apply conj; reflexivity. Qed.

(** C4: errors of the object or the simulator leave the three object handlers
    as exceptions: a link the box does not have, for GetDynamics and
    ChangeDynamics, and a body the simulator does not have, for GetPosition. *)
Theorem object_handlers_let_errors_out :
  fst (service_get_pybullet_object_dynamics
         {| gd_object_name := "box1"; gd_link_idx := 5 |} scene)
  = Raised Reference.no_link
  /\ fst (service_change_pybullet_object_dynamics
            {| cd_object_name := "box1"; cd_link_idx := 5;
               cd_object_dynamics := mass_only (PyFloat 2) |} scene)
     = Raised Reference.no_link
  /\ fst (service_get_pybullet_object_position
            {| gp_object_name := "ghost"; gp_link_idx := 0 |} scene)
     = Raised Reference.no_body.
Proof. cbv zeta. repeat apply conj; reflexivity. Qed.

(** C5 as stated fails: [destroy] of the ghost raises, RemoveObject answers
    with the failure, and the name is still registered. *)
Lemma remove_keeps_entry_when_destroy_fails :
  Reference.destroy ghost (pb scene) = (Raised Reference.no_body, pb scene)
  /\ fst (service_remove_pybullet_object {| data := "ghost" |} scene)
     = Returned {| success := false;
                   message := "failed to remove Pybullet object, exception: no such body" |}
  /\ pybullet_objects (snd (service_remove_pybullet_object {| data := "ghost" |} scene))
       !! "ghost" = Some ghost.
Proof. cbv zeta. repeat apply conj; reflexivity. Qed.

Lemma remove_destroy_fails_witness :
  fst (service_remove_pybullet_object {| data := "ghost" |} scene)
  = Returned {| success := false;
                message := "failed to remove Pybullet object, exception: "
                           ++ str Reference.no_body |}
  /\ pybullet_objects (snd (service_remove_pybullet_object {| data := "ghost" |} scene))
     = pybullet_objects scene.
Proof.
  apply (remove_destroy_fails scene "ghost" ghost Reference.no_body (pb scene));
    reflexivity.
Defined.

Lemma add_duplicate_name_witness :
  PybulletObjects.add {[ "name" := "box1" ]} PybulletDynamicObject scene
  = (Raised (PybulletObjects.already_exists "box1"), scene).
Proof.
  apply (add_duplicate_name scene {[ "name" := "box1" ]} PybulletDynamicObject "box1").
  - reflexivity.
  - exists box1. reflexivity.
Defined.

Lemma half_is_not_zero : PyFloat 0.5 <> PyFloat 0.
Proof.
  intros E.
  apply (f_equal (fun v => match v with PyFloat f => PrimFloat.eqb f 0 | _ => false end)) in E.
  vm_compute in E. discriminate.
Qed.

(** C7 as stated fails: a request that sets the mass of the box writes the
    other eight properties too; the lateral friction, 0.5 before, is the
    message's default afterwards. *)
Lemma change_dynamics_overwrites_unset_field :
  let req := {| cd_object_name := "box1"; cd_link_idx := 0;
                cd_object_dynamics := mass_only (PyFloat 2) |} in
  let st' := snd (service_change_pybullet_object_dynamics req scene) in
  link_property box1 0 "lateralFriction" (pb scene) = Returned (PyFloat 0.5)
  /\ fst (service_change_pybullet_object_dynamics req scene)
     = Returned {| success := true; message := "changed pybullet object dynamics" |}
  /\ link_property box1 0 "mass" (pb st') = Returned (PyFloat 2)
  /\ link_property box1 0 "lateralFriction" (pb st') = Returned (PyFloat 0)
  /\ PyFloat 0.5 <> PyFloat 0.
Proof.
  cbv zeta. repeat apply conj; try reflexivity. apply half_is_not_zero.
Qed.

Lemma change_dynamics_passes_all_fields_witness :
  let req := {| cd_object_name := "box1"; cd_link_idx := 0;
                cd_object_dynamics := mass_only (PyFloat 2) |} in
  service_change_pybullet_object_dynamics req scene
  = (Returned {| success := true; message := "changed pybullet object dynamics" |},
     set_pb (snd (Reference.change_dynamics box1 (dynamics_dict (mass_only (PyFloat 2))) 0
                    (pb scene))) scene)
  /\ dynamics_dict (mass_only (PyFloat 2)) !! "lateralFriction" = Some (PyFloat 0).
Proof.
  intros req.
  destruct (change_dynamics_passes_all_fields scene req box1 eq_refl)
    as (Hcall & _ & Hfriction & _).
  split; [exact Hcall | exact Hfriction].
Defined.

Lemma remove_unknown_name_witness :
  fst (service_remove_pybullet_object {| data := "nobody" |} scene)
  = Returned {| success := false;
                message := "given object " ++ dquote ++ "nobody" ++ dquote ++ " does not exist!" |}
  /\ pybullet_objects (snd (service_remove_pybullet_object {| data := "nobody" |} scene))
     = pybullet_objects scene.
Proof. apply (remove_unknown_name scene "nobody"). reflexivity. Defined.

Lemma remove_destroyed_witness :
  fst (service_remove_pybullet_object {| data := "box1" |} scene)
  = Returned {| success := true; message := "removed pybullet object" |}
  /\ pybullet_objects (snd (service_remove_pybullet_object {| data := "box1" |} scene))
     = delete "box1" (pybullet_objects scene).
Proof.
  apply (remove_destroyed scene "box1" box1
           {| Reference.bodies := delete 0 (Reference.bodies (pb scene));
              Reference.next_id := 2 |}); reflexivity.
Defined.

Lemma add_unrecognized_kind_witness :
  let po := {| object_type := 9; filename := ""; config := "box2" |} in
  let r := service_add_pybullet_object {| pybullet_object := po |} scene in
  success <$> fst r = Returned false
  /\ pybullet_objects (snd r) = pybullet_objects scene
  /\ pb (snd r) = pb scene
  /\ counter (snd r) = counter scene.
Proof.
  apply (add_unrecognized_kind scene {| object_type := 9; filename := ""; config := "box2" |}).
  right. reflexivity.
Defined.

Lemma add_handler_duplicate_name_witness :
  let po := {| object_type := 2; filename := ""; config := "box1" |} in
  let r := service_add_pybullet_object {| pybullet_object := po |} scene in
  fst r = Returned {| success := false;
                      message := "'box1 already exists, pybullet objects must be given unique names!'" |}
  /\ pybullet_objects (snd r) = pybullet_objects scene
  /\ pb (snd r) = pb scene
  /\ counter (snd r) = counter scene.
Proof.
  apply (add_handler_duplicate_name scene
           {| object_type := 2; filename := ""; config := "box1" |}
           PybulletDynamicObject {[ "name" := "box1" ]} "box1").
  - reflexivity.
  - reflexivity.
  - discriminate.
  - reflexivity.
  - reflexivity.
  - exists box1. reflexivity.
Defined.

Lemma unknown_name_answers_witness :
  fst (service_get_pybullet_object_position
         {| gp_object_name := "nobody"; gp_link_idx := 0 |} scene)
  = Returned {| gp_success := false;
                gp_message := "did not recognize object name (get position)";
                position := None; orientation := None |}.
Proof.
  destruct (unknown_name_answers scene "nobody" 0 ObjectDynamics_default eq_refl)
    as (_ & Hpos & _).
  rewrite Hpos. reflexivity.
Defined.

(** ** Round trip on the reference objects *)

Lemma dict_getitem_union (m1 m2 : gmap string pyval) key v :
  m1 !! key = Some v -> dict_getitem (m1 ∪ m2) key = Returned v.
Proof.
  intros Hk. unfold dict_getitem.
  rewrite (lookup_union_Some_l m1 m2 key v Hk). reflexivity.
Qed.

(** With objects that write what they are handed, ChangeDynamics followed by
    GetDynamics on the same object and link gives back the request's message,
    all nine fields of it. *)
Theorem change_then_get_dynamics (st : @State Reference.rpbi) (name : string)
    (link : Z) (msg : ObjectDynamics) (o : Reference.handle) (b : Reference.body)
    (d : gmap string pyval) :
  pybullet_objects st !! name = Some o ->
  Reference.supports_dynamics (Reference.class_of o) = true ->
  Reference.bodies (pb st) !! Reference.body_id o = Some b ->
  Reference.links b !! link = Some d ->
  let change := service_change_pybullet_object_dynamics
                  {| cd_object_name := name; cd_link_idx := link;
                     cd_object_dynamics := msg |} st in
  fst change = Returned {| success := true; message := "changed pybullet object dynamics" |}
  /\ object_dynamics
       <$> fst (service_get_pybullet_object_dynamics
                  {| gd_object_name := name; gd_link_idx := link |} (snd change))
     = Returned (Some msg).
Proof.
  intros Ho Hsup Hb Hd change.
  pose (w' := {| Reference.bodies :=
                   <[Reference.body_id o :=
                       {| Reference.base_position := Reference.base_position b;
                          Reference.base_orientation := Reference.base_orientation b;
                          Reference.links :=
                            <[link := dynamics_dict msg ∪ d]> (Reference.links b) |}]>
                     (Reference.bodies (pb st));
                 Reference.next_id := Reference.next_id (pb st) |}).
  assert (change =
          (Returned {| success := true; message := "changed pybullet object dynamics" |},
           @set_pb Reference.rpbi w' st)) as ->.
  { subst change. unfold service_change_pybullet_object_dynamics.
    unfold mbind, M_bind, mret, M_ret, call. cbn [cd_object_name cd_link_idx cd_object_dynamics].
    rewrite (@contains_registered Reference.rpbi _ _ _ Ho). cbn [negb].
    rewrite (@getitem_registered Reference.rpbi _ _ _ Ho), object_type_message_quiet.
    cbn [change_dynamics Reference.rpbi].
    unfold Reference.change_dynamics, Reference.find_link.
    rewrite Hsup, Hb, Hd. reflexivity. }
  split; [reflexivity|]. cbn [fst snd].
  unfold service_get_pybullet_object_dynamics.
  unfold mbind, M_bind, mret, M_ret, call, lift, logerr, log.
  cbn [gd_object_name gd_link_idx].
  rewrite (@contains_registered Reference.rpbi _ _ o) by exact Ho. cbn [negb].
  rewrite (@getitem_registered Reference.rpbi _ _ o) by exact Ho.
  destruct (@object_type_message_noisy Reference.rpbi (@set_pb Reference.rpbi w' st)
              o "got pybullet object dynamics")
    as (m & st1 & -> & _ & _ & Hpb).
  cbn [pb append_log get_dynamics Reference.rpbi].
  rewrite Hpb. cbn [pb set_pb].
  unfold Reference.get_dynamics, Reference.find_link.
  rewrite Hsup. subst w'. cbn [Reference.bodies].
  rewrite lookup_insert_eq. cbn [Reference.links]. rewrite lookup_insert_eq.
  rewrite (dict_getitem_union (dynamics_dict msg) d "mass" (mass msg) eq_refl).
  rewrite (dict_getitem_union (dynamics_dict msg) d "lateralFriction" (lateral_friction msg) eq_refl).
  rewrite (dict_getitem_union (dynamics_dict msg) d "localInertiaDiagonal" (local_inertia_diagonal msg) eq_refl).
  rewrite (dict_getitem_union (dynamics_dict msg) d "restitution" (restitution msg) eq_refl).
  rewrite (dict_getitem_union (dynamics_dict msg) d "rollingFriction" (rolling_friction msg) eq_refl).
  rewrite (dict_getitem_union (dynamics_dict msg) d "spinningFriction" (spinning_friction msg) eq_refl).
  rewrite (dict_getitem_union (dynamics_dict msg) d "contactDamping" (contact_damping msg) eq_refl).
  rewrite (dict_getitem_union (dynamics_dict msg) d "contactStiffness" (contact_stiffness msg) eq_refl).
  rewrite (dict_getitem_union (dynamics_dict msg) d "collisionMargin" (collision_margin msg) eq_refl).
  destruct msg; reflexivity.
Qed.

Lemma change_then_get_dynamics_witness :
  let change := service_change_pybullet_object_dynamics
                  {| cd_object_name := "box1"; cd_link_idx := 0;
                     cd_object_dynamics := mass_only (PyFloat 2) |} scene in
  fst change = Returned {| success := true; message := "changed pybullet object dynamics" |}
  /\ object_dynamics
       <$> fst (service_get_pybullet_object_dynamics
                  {| gd_object_name := "box1"; gd_link_idx := 0 |} (snd change))
     = Returned (Some (mass_only (PyFloat 2))).
Proof.
  apply (change_then_get_dynamics scene "box1" 0 (mass_only (PyFloat 2)) box1 resting
           Reference.default_dynamics); reflexivity.
Defined.

(** Shutdown of a scene whose bodies are all live: the registry is drained. *)
Example close_live_scene :
  let live := set_objects (delete "ghost" (pybullet_objects scene)) scene in
  fst (close live) = Returned tt
  /\ pybullet_objects (snd (close live)) = ∅
  /\ Reference.bodies (pb (snd (close live))) = ∅.
Proof. cbv zeta. repeat apply conj; reflexivity. Qed.

(** Shutdown stops at the first [destroy] that raises. *)
Example close_scene_with_ghost :
  fst (close scene) = Raised Reference.no_body
  /\ pybullet_objects (snd (close scene)) !! "ghost" = Some ghost.
Proof. cbv zeta. repeat apply conj; reflexivity. Qed.

(** A session: add a collision object from an inline config, ask for its
    position, set its mass, read the dynamics back, remove it, and ask for its
    position again. *)
Example session :
  let box := {| object_type := COLLISION; filename := ""; config := "box1" |} in
  let added := service_add_pybullet_object {| pybullet_object := box |} fresh in
  let located := service_get_pybullet_object_position
                   {| gp_object_name := "box1"; gp_link_idx := 0 |} (snd added) in
  let changed := service_change_pybullet_object_dynamics
                   {| cd_object_name := "box1"; cd_link_idx := 0;
                      cd_object_dynamics := mass_only (PyFloat 2) |} (snd located) in
  let read := service_get_pybullet_object_dynamics
                {| gd_object_name := "box1"; gd_link_idx := 0 |} (snd changed) in
  let removed := service_remove_pybullet_object {| data := "box1" |} (snd read) in
  let gone := service_get_pybullet_object_position
                {| gp_object_name := "box1"; gp_link_idx := 0 |} (snd removed) in
  fst added = Returned {| success := true; message := "added pybullet object" |}
  /\ gp_success <$> fst located = Returned true
  /\ fst changed = Returned {| success := true; message := "changed pybullet object dynamics" |}
  /\ fst read = Returned {| gd_success := true; gd_message := "got pybullet object dynamics";
                            object_dynamics := Some (mass_only (PyFloat 2)) |}
  /\ fst removed = Returned {| success := true; message := "removed pybullet object" |}
  /\ fst gone = Returned {| gp_success := false;
                            gp_message := "did not recognize object name (get position)";
                            position := None; orientation := None |}.
Proof. cbv zeta. repeat apply conj; reflexivity. Qed.

(** * More on [parse_options] *)

Section MoreOptionFacts.
Import Options.
Variable attrs : gmap string pyval.

Lemma split_join names :
  names <> [] ->
  Forall (fun name => lacks "|" name = true) names ->
  split "|" (join "|" names) = names.
Proof.
  intros Hne Hall. induction Hall as [|name rest Hname Hrest IH]; [congruence|].
  destruct rest as [|next rest'].
  - cbn. apply split_no_sep, Hname.
  - change (join "|" (name :: next :: rest'))
      with (name ++ String "|" (join "|" (next :: rest'))).
    rewrite (split_at_sep _ _ _ Hname), IH by discriminate. reflexivity.
Qed.

Lemma fold_lor_testbit ns : forall n i,
  Z.testbit (fold_left Z.lor ns n) i = existsb (fun m => Z.testbit m i) (n :: ns).
Proof.
  induction ns as [|m ns IH]; intros n i; cbn.
  - rewrite orb_false_r. reflexivity.
  - rewrite IH. cbn. rewrite Z.lor_spec, orb_assoc. reflexivity.
Qed.

Lemma existsb_same_elements {A} (f : A -> bool) l1 l2 :
  (forall x, In x l1 <-> In x l2) -> existsb f l1 = existsb f l2.
Proof.
  intros Hsame. apply Bool.eq_iff_eq_true. rewrite !existsb_exists.
  split; intros (x & Hx & Hf); exists x; split; try apply Hsame; assumption.
Qed.

Lemma ior_all_of_ints out rest :
  forallb isinstance_int (out :: rest) = true ->
  exists n, ior_all out rest = Returned (PyInt n).
Proof.
  revert out. induction rest as [|opt rest IH]; intros out; cbn.
  - destruct out; try discriminate. eauto.
  - destruct out; try discriminate. destruct opt; try discriminate.
    cbn. intros Hrest. apply IH. exact Hrest.
Qed.

(** the last two steps of [parse_options], on a list *)
Lemma parse_tail_int (vs : list pyval) (r : pyval) :
  (ints ← is_list_int (PyList vs);
   if ints : bool then
     els ← iter (PyList vs);
     match els with
     | [] => Raised (Exc IndexError "list index out of range")
     | out :: rest => ior_all out rest
     end
   else Raised (Exc ValueError "did not recognize options type!")) = Returned r ->
  exists n, r = PyInt n.
Proof.
  unfold is_list_int. cbn [iter mbind result_bind mret result_ret].
  destruct (forallb isinstance_int vs) eqn:Hints; [|discriminate].
  destruct vs as [|out rest]; [discriminate|].
  destruct (ior_all_of_ints out rest Hints) as [n ->].
  intros [= <-]. eauto.
Qed.

Lemma getattr_each_unknown pre bad post :
  Forall (fun name => is_Some (attrs !! name)) pre ->
  attrs !! bad = None ->
  getattr_each attrs (map PyStr (pre ++ bad :: post))
  = Raised (Exc AttributeError ("module 'pybullet' has no attribute '" ++ bad ++ "'")).
Proof.
  intros Hpre Hbad. induction Hpre as [|name pre [v Hv] _ IH]; cbn.
  - rewrite Hbad. reflexivity.
  - rewrite Hv. cbn. fold (map PyStr (pre ++ bad :: post)). rewrite IH. reflexivity.
Qed.

End MoreOptionFacts.

(** Whatever [parse_options] returns is an integer, and parsing that integer
    again gives it back. *)
Theorem parse_options_returns_int (attrs : gmap string pyval) (options r : pyval) :
  Options.parse_options attrs options = Returned r ->
  (exists n, r = PyInt n) /\ Options.parse_options attrs r = Returned r.
Proof.
  intros Hr.
  assert (exists n, r = PyInt n) as [n ->]; [|split; [eauto|reflexivity]].
  destruct options as [n|s|f| |l].
  - injection Hr as <-. eauto.
  - unfold Options.parse_options, Options.is_list_str in Hr.
    cbn [Options.iter mbind result_bind mret result_ret] in Hr.
    rewrite forallb_str_names in Hr.
    destruct (Options.getattr_each attrs (map PyStr (split "|" s))) as [vs|e]; [|discriminate].
    cbn [mbind result_bind mret result_ret] in Hr.
    apply (parse_tail_int vs r Hr).
  - discriminate.
  - discriminate.
  - unfold Options.parse_options, Options.is_list_str in Hr.
    cbn [Options.iter mbind result_bind mret result_ret] in Hr.
    destruct (forallb Options.isinstance_str l).
    + destruct (Options.getattr_each attrs l) as [vs|e]; [|discriminate].
      cbn [mbind result_bind mret result_ret] in Hr.
      apply (parse_tail_int vs r Hr).
    + cbn [mbind result_bind mret result_ret] in Hr.
      apply (parse_tail_int l r Hr).
Qed.

Lemma parse_options_returns_int_witness :
  (exists n, PyInt 10 = PyInt n)
  /\ Options.parse_options sample_attrs (PyInt 10) = Returned (PyInt 10).
Proof.
  apply (parse_options_returns_int sample_attrs
           (PyStr "URDF_USE_INERTIA_FROM_FILE|URDF_USE_SELF_COLLISION") (PyInt 10)).
  vm_compute. reflexivity.
Defined.

(** A string of any number of names joined by pipes is parsed as the list of
    those names. *)
Theorem parse_options_joined (attrs : gmap string pyval) (names : list string) :
  names <> [] ->
  Forall (fun name => lacks "|" name = true) names ->
  Options.parse_options attrs (PyStr (join "|" names))
  = Options.parse_options attrs (PyList (map PyStr names)).
Proof.
  intros Hne Hall. rewrite parse_string, (split_join names Hne Hall). reflexivity.
Qed.

Lemma parse_options_joined_witness :
  Options.parse_options sample_attrs
    (PyStr (join "|" ["URDF_USE_SELF_COLLISION"; "URDF_USE_INERTIA_FROM_FILE";
                      "URDF_USE_SELF_COLLISION"]))
  = Options.parse_options sample_attrs
      (PyList (map PyStr ["URDF_USE_SELF_COLLISION"; "URDF_USE_INERTIA_FROM_FILE";
                          "URDF_USE_SELF_COLLISION"])).
Proof.
  apply (parse_options_joined sample_attrs
           ["URDF_USE_SELF_COLLISION"; "URDF_USE_INERTIA_FROM_FILE";
            "URDF_USE_SELF_COLLISION"]).
  - discriminate.
  - repeat constructor.
Defined.

(** For a non-empty list of integers the result has exactly the bits that some
    element has. *)
Theorem parse_options_bits (attrs : gmap string pyval) (n : Z) (ns : list Z) :
  exists r,
    Options.parse_options attrs (PyList (map PyInt (n :: ns))) = Returned (PyInt r)
    /\ forall i, Z.testbit r i = existsb (fun m => Z.testbit m i) (n :: ns).
Proof.
  exists (fold_left Z.lor ns n). split.
  - apply parse_ints.
  - intros i. apply fold_lor_testbit.
Qed.

(** Neither the order of the integers in the list nor repeating one matters:
    two non-empty lists with the same elements parse to the same integer. *)
Theorem parse_options_same_elements (attrs : gmap string pyval) (n m : Z) (ns ms : list Z) :
  (forall x, In x (n :: ns) <-> In x (m :: ms)) ->
  Options.parse_options attrs (PyList (map PyInt (n :: ns)))
  = Options.parse_options attrs (PyList (map PyInt (m :: ms))).
Proof.
  intros Hsame. rewrite !parse_ints. do 2 f_equal.
  apply Z.bits_inj'. intros i _.
  rewrite !fold_lor_testbit. apply existsb_same_elements, Hsame.
Qed.

Lemma parse_options_same_elements_witness :
  Options.parse_options sample_attrs (PyList (map PyInt [2; 8; 2]))
  = Options.parse_options sample_attrs (PyList (map PyInt [8; 2])).
Proof.
  apply (parse_options_same_elements sample_attrs 2 8 [8; 2] [2]).
  intros x. cbn. tauto.
Defined.

(** A list of names of which one is not an attribute of pybullet raises
    AttributeError for the first such name; nothing is returned for the names
    that do resolve. *)
Theorem parse_options_unknown_name (attrs : gmap string pyval)
    (pre : list string) (bad : string) (post : list string) :
  Forall (fun name => is_Some (attrs !! name)) pre ->
  attrs !! bad = None ->
  Options.parse_options attrs (PyList (map PyStr (pre ++ bad :: post)))
  = Raised (Exc AttributeError ("module 'pybullet' has no attribute '" ++ bad ++ "'")).
Proof.
  intros Hpre Hbad. unfold Options.parse_options, Options.is_list_str.
  cbn [Options.iter mbind result_bind mret result_ret].
  rewrite forallb_str_names, (getattr_each_unknown attrs pre bad post Hpre Hbad).
  reflexivity.
Qed.

Lemma parse_options_unknown_name_witness :
  Options.parse_options sample_attrs
    (PyList (map PyStr (["URDF_USE_SELF_COLLISION"] ++ "NO_SUCH_FLAG" :: ["ALSO_MISSING"])))
  = Raised (Exc AttributeError ("module 'pybullet' has no attribute '" ++ "NO_SUCH_FLAG" ++ "'")).
Proof.
  apply (parse_options_unknown_name sample_attrs
           ["URDF_USE_SELF_COLLISION"] "NO_SUCH_FLAG" ["ALSO_MISSING"]).
  - repeat constructor. exists (PyInt 8). reflexivity.
  - reflexivity.
Defined.

(** * More on the registry and the handlers *)

Section MoreHandlerFacts.
Context `{Rpbi}.
Import PybulletObjects.

Ltac run :=
  unfold mbind, M_bind, mret, M_ret, raise, lift, gets, modify, call, attr,
    try_except, log, logerr, logwarn, loginfo, print_exc; cbn beta iota.

Ltac answer := eexists; split; [reflexivity|]; cbn; eauto 10.

(** [add], path by path *)
Lemma add_cases (st : State) (config : gmap string string) (cls : object_class) :
  add config cls st =
  match config !! "name" with
  | None => (Raised (Exc KeyError "name"), st)
  | Some name =>
      match pybullet_objects st !! name with
      | Some _ => (Raised (already_exists name), st)
      | None =>
          match construct cls config (pb st) with
          | (Returned o, w) =>
              (Returned tt, set_objects (<[name := o]> (pybullet_objects st)) (set_pb w st))
          | (Raised e, w) => (Raised e, set_pb w st)
          end
      end
  end.
Proof.
  unfold add. run. unfold dict_getitem.
  destruct (config !! "name") as [name|]; [|reflexivity].
  destruct (pybullet_objects st !! name) as [o|] eqn:Ho.
  - rewrite (contains_registered _ _ _ Ho). reflexivity.
  - rewrite (contains_absent _ _ Ho).
    destruct (construct cls config (pb st)) as [[o|e] w]; [|reflexivity].
    unfold setitem. run.
    rewrite (contains_absent (set_pb w st) name) by exact Ho. reflexivity.
Qed.

(** [add] on a config with a fresh name, when the constructor returns: the
    object is registered under the name, looking the name up gives it back,
    and every other name is as before. *)
Theorem add_then_getitem (st : State) (config : gmap string string)
    (cls : object_class) (name : string) (o : object) (w : pybullet) :
  config !! "name" = Some name ->
  pybullet_objects st !! name = None ->
  construct cls config (pb st) = (Returned o, w) ->
  let st' := snd (add config cls st) in
  fst (add config cls st) = Returned tt
  /\ getitem name st' = (Returned o, st')
  /\ pb st' = w
  /\ size (pybullet_objects st') = S (size (pybullet_objects st))
  /\ forall other, other <> name ->
       pybullet_objects st' !! other = pybullet_objects st !! other.
Proof.
  intros Hname Hfresh Hnew. cbv zeta. rewrite add_cases, Hname, Hfresh, Hnew. cbn.
  repeat apply conj; try reflexivity.
  - unfold getitem, dict_getitem. cbn. rewrite lookup_insert_eq. reflexivity.
  - apply map_size_insert_None, Hfresh.
  - intros other Hother. apply lookup_insert_ne. congruence.
Qed.

(** [add] on a config without a name raises KeyError for the key, before
    anything is constructed: the state is as it was. *)
Lemma add_missing_name (st : State) (config : gmap string string) (cls : object_class) :
  config !! "name" = None ->
  add config cls st = (Raised (Exc KeyError "name"), st).
Proof. intros Hname. rewrite add_cases, Hname. reflexivity. Qed.


(** the two [try] blocks of AddObject, path by path *)
Lemma try_add_cases (st : State) (loaded : result (gmap string string)) (cls : object_class) :
  try_add loaded cls st =
  let failed e st' :=
    (Returned {| success := false; message := str e |},
     append_log (ERROR, LogStr (str e)) (append_log (ERROR, LogTraceback e) st')) in
  match loaded with
  | Raised e => failed e st
  | Returned config =>
      match add config cls st with
      | (Returned _, st') =>
          (Returned {| success := true; message := "added pybullet object" |}, st')
      | (Raised e, st') => failed e st'
      end
  end.
Proof.
  unfold try_add. run.
  destruct loaded as [config|e]; [|reflexivity].
  destruct (add config cls st) as [[[]|e] st']; reflexivity.
Qed.



(** When a filename is given the inline config is not looked at: two requests
    that differ in it only are answered alike. *)
Theorem add_filename_first (st : State) (code : Z) (file text1 text2 : string) :
  file <> "" ->
  service_add_pybullet_object
    {| pybullet_object := {| object_type := code; filename := file; config := text1 |} |} st
  = service_add_pybullet_object
      {| pybullet_object := {| object_type := code; filename := file; config := text2 |} |} st.
Proof.
  intros Hfile. unfold service_add_pybullet_object. cbn [pybullet_object object_type filename].
  destruct (resolve_object_type code) as [cls|]; [|reflexivity].
  apply String.eqb_neq in Hfile. rewrite Hfile. reflexivity.
Qed.

(** A request with a known kind code but neither filename nor config is
    refused with a fixed message; nothing is loaded, built or logged. *)
Theorem add_without_source (st : State) (code : Z) :
  0 <= code <= 5 ->
  service_add_pybullet_object
    {| pybullet_object := {| object_type := code; filename := ""; config := "" |} |} st
  = (Returned {| success := false;
                 message := "failed to add pybullet object, neither filename of config was given in request!" |},
     st).
Proof.
  intros Hcode. unfold service_add_pybullet_object. cbn [pybullet_object object_type filename config].
  assert (exists cls, resolve_object_type code = Some cls) as [cls ->].
  { unfold resolve_object_type, VISUAL, COLLISION, DYNAMIC, ROBOT, SOFT, URDF.
    repeat case_decide; eauto. lia. }
  reflexivity.
Qed.

(** When the config file cannot be loaded, AddObject answers success=false
    with the text of the loader's error, logs the traceback and the message,
    and constructs nothing. *)
Theorem add_load_fails (st : State) (code : Z) (file text : string) (e : exception) :
  0 <= code <= 5 ->
  file <> "" ->
  load_config file = Raised e ->
  service_add_pybullet_object
    {| pybullet_object := {| object_type := code; filename := file; config := text |} |} st
  = (Returned {| success := false; message := str e |},
     append_log (ERROR, LogStr (str e)) (append_log (ERROR, LogTraceback e) st)).
Proof.
  intros Hcode Hfile Hload. unfold service_add_pybullet_object.
  cbn [pybullet_object object_type filename config].
  assert (exists cls, resolve_object_type code = Some cls) as [cls ->].
  { unfold resolve_object_type, VISUAL, COLLISION, DYNAMIC, ROBOT, SOFT, URDF.
    repeat case_decide; eauto. lia. }
  apply String.eqb_neq in Hfile. rewrite Hfile. cbn [negb].
  rewrite try_add_cases, Hload. reflexivity.
Qed.

(** Adding the same config a second time raises the "already exists" error
    and changes nothing: the object registered first stays. *)
Theorem add_twice (st : State) (config : gmap string string)
    (cls cls' : object_class) (name : string) (o : object) (w : pybullet) :
  config !! "name" = Some name ->
  pybullet_objects st !! name = None ->
  construct cls config (pb st) = (Returned o, w) ->
  let st' := snd (add config cls st) in
  add config cls' st' = (Raised (already_exists name), st')
  /\ pybullet_objects st' !! name = Some o.
Proof.
  intros Hname Hfresh Hnew. cbv zeta.
  rewrite (add_cases st), Hname, Hfresh, Hnew. cbn [snd].
  rewrite add_cases, Hname. cbn. rewrite lookup_insert_eq. auto.
Qed.

(** RemoveObject, path by path *)
Lemma remove_cases (st : State) (name : string) :
  service_remove_pybullet_object {| data := name |} st =
  let no_such :=
    {| success := false;
       message := "given object " ++ dquote ++ name ++ dquote ++ " does not exist!" |} in
  match pybullet_objects st !! name with
  | None => (Returned no_such, append_log (ERROR, LogStr (message no_such)) st)
  | Some o =>
      match destroy o (pb st) with
      | (Returned _, w) =>
          (Returned {| success := true; message := "removed pybullet object" |},
           append_log (INFO, LogStr "removed pybullet object")
             (set_objects (delete name (pybullet_objects st)) (set_pb w st)))
      | (Raised e, w) =>
          if is_KeyError e then
            (Returned no_such, append_log (ERROR, LogStr (message no_such)) (set_pb w st))
          else
            (Returned {| success := false;
                         message := "failed to remove Pybullet object, exception: " ++ str e |},
             append_log
               (ERROR, LogStr ("failed to remove Pybullet object, exception: " ++ str e))
               (append_log (ERROR, LogTraceback e) (set_pb w st)))
      end
  end.
Proof.
  unfold service_remove_pybullet_object. run. cbn [data].
  destruct (pybullet_objects st !! name) as [o|] eqn:Ho.
  - destruct (destroy o (pb st)) as [[[]|e] w] eqn:Hd.
    + rewrite (delitem_destroyed _ _ _ _ Ho Hd). reflexivity.
    + rewrite (delitem_destroy_raises _ _ _ _ _ Ho Hd).
      destruct (is_KeyError e); reflexivity.
  - rewrite (delitem_unknown _ _ Ho). reflexivity.
Qed.

(** RemoveObject's answer tells what happened to the registry: on
    success=true the name was registered and is now gone; on success=false
    the registry is as it was.  Every other name keeps its object, and the
    counter its value. *)
Theorem remove_handler_outcome (st : State) (name : string) :
  let r := service_remove_pybullet_object {| data := name |} st in
  exists resp,
    fst r = Returned resp
    /\ counter (snd r) = counter st
    /\ (forall other, other <> name ->
          pybullet_objects (snd r) !! other = pybullet_objects st !! other)
    /\ if success resp then
         is_Some (pybullet_objects st !! name)
         /\ pybullet_objects (snd r) = delete name (pybullet_objects st)
       else pybullet_objects (snd r) = pybullet_objects st.
Proof.
  cbv zeta. rewrite remove_cases. cbv zeta.
  destruct (pybullet_objects st !! name) as [o|] eqn:Ho; [|answer].
  destruct (destroy o (pb st)) as [[[]|e] w].
  - eexists. split; [reflexivity|]. cbn. repeat apply conj; eauto.
    intros other Hother. apply lookup_delete_ne. congruence.
  - destruct (is_KeyError e); answer.
Qed.

(** RemoveObject logs the message it answers with, as the last record: at
    INFO when it succeeded, at ERROR when it did not. *)
Theorem remove_logs_answer (st : State) (name : string) :
  let r := service_remove_pybullet_object {| data := name |} st in
  exists resp,
    fst r = Returned resp
    /\ last (rosout (snd r))
       = Some (if success resp then INFO else ERROR, LogStr (message resp)).
Proof.
  cbv zeta. rewrite remove_cases. cbv zeta.
  destruct (pybullet_objects st !! name) as [o|].
  - destruct (destroy o (pb st)) as [[[]|e] w]; [|destruct (is_KeyError e)];
      (eexists; split; [reflexivity|]; cbn; apply last_snoc).
  - eexists; split; [reflexivity|]; cbn; apply last_snoc.
Qed.

(** GetDynamics, GetPosition and ChangeDynamics never add, drop or replace a
    registry entry, whatever they answer or raise; GetDynamics and
    ChangeDynamics leave the counter alone as well. *)
Theorem object_handlers_keep_registry (st : State) (gd : GetObjectDynamicsRequest)
    (gp : GetObjectPositionRequest) (cd : ChangeObjectDynamicsRequest) :
  pybullet_objects (snd (service_get_pybullet_object_dynamics gd st)) = pybullet_objects st
  /\ counter (snd (service_get_pybullet_object_dynamics gd st)) = counter st
  /\ pybullet_objects (snd (service_get_pybullet_object_position gp st)) = pybullet_objects st
  /\ pybullet_objects (snd (service_change_pybullet_object_dynamics cd st)) = pybullet_objects st
  /\ counter (snd (service_change_pybullet_object_dynamics cd st)) = counter st.
Proof.
  split; [|split]; [| |split; [|split]].
  - unfold service_get_pybullet_object_dynamics. run.
    destruct (pybullet_objects st !! gd_object_name gd) as [o|] eqn:Ho.
    + rewrite (contains_registered _ _ _ Ho). cbn [negb].
      rewrite (getitem_registered _ _ _ Ho).
      destruct (object_type_message_noisy st o "got pybullet object dynamics")
        as (m & st1 & -> & _ & Hreg & _).
      cbn. destruct (get_dynamics o (gd_link_idx gd) (pb st1)) as [[d|e] w]; [|exact Hreg].
      repeat (match goal with
              | |- context [dict_getitem ?d ?k] =>
                  destruct (dict_getitem d k); [|exact Hreg]
              end).
      exact Hreg.
    + rewrite (contains_absent _ _ Ho). reflexivity.
  - unfold service_get_pybullet_object_dynamics. run.
    destruct (pybullet_objects st !! gd_object_name gd) as [o|] eqn:Ho.
    + rewrite (contains_registered _ _ _ Ho). cbn [negb].
      rewrite (getitem_registered _ _ _ Ho).
      destruct (object_type_message_noisy st o "got pybullet object dynamics")
        as (m & st1 & -> & Hc & _ & _).
      cbn. destruct (get_dynamics o (gd_link_idx gd) (pb st1)) as [[d|e] w]; [|exact Hc].
      repeat (match goal with
              | |- context [dict_getitem ?d ?k] =>
                  destruct (dict_getitem d k); [|exact Hc]
              end).
      exact Hc.
    + rewrite (contains_absent _ _ Ho). reflexivity.
  - unfold service_get_pybullet_object_position. run.
    destruct (pybullet_objects st !! gp_object_name gp) as [o|] eqn:Ho.
    + rewrite (contains_registered _ _ _ Ho). cbn [negb].
      rewrite (getitem_registered _ _ _ Ho).
      destruct (object_type_message_noisy st o "got pybullet object position")
        as (m & st1 & -> & _ & Hreg & _).
      destruct (basePosition o (pb st1)) as [p|e]; [|exact Hreg].
      destruct (baseOrientation o (pb st1)) as [q|e]; [|exact Hreg].
      destruct (body_unique_id o (pb st1)) as [id|e]; [|exact Hreg].
      destruct (resetBasePositionAndOrientation id new_position new_orientation (pb st1))
        as [[[]|e] w]; exact Hreg.
    + rewrite (contains_absent _ _ Ho). reflexivity.
  - unfold service_change_pybullet_object_dynamics. run.
    destruct (pybullet_objects st !! cd_object_name cd) as [o|] eqn:Ho.
    + rewrite (contains_registered _ _ _ Ho). cbn [negb].
      rewrite (getitem_registered _ _ _ Ho), object_type_message_quiet.
      destruct (change_dynamics o _ _ _) as [[[]|e] w]; reflexivity.
    + rewrite (contains_absent _ _ Ho). reflexivity.
  - unfold service_change_pybullet_object_dynamics. run.
    destruct (pybullet_objects st !! cd_object_name cd) as [o|] eqn:Ho.
    + rewrite (contains_registered _ _ _ Ho). cbn [negb].
      rewrite (getitem_registered _ _ _ Ho), object_type_message_quiet.
      destruct (change_dynamics o _ _ _) as [[[]|e] w]; reflexivity.
    + rewrite (contains_absent _ _ Ho). reflexivity.
Qed.

Lemma dict_getitem_subseteq (m1 m2 : gmap string pyval) key v :
  m1 ⊆ m2 -> m1 !! key = Some v -> dict_getitem m2 key = Returned v.
Proof.
  intros Hsub Hk. unfold dict_getitem.
  rewrite (lookup_weaken m1 m2 key v Hk Hsub). reflexivity.
Qed.

(** GetDynamics reads back what ChangeDynamics writes: when the object's
    [get_dynamics] returns a dict that holds the nine entries made from a
    message, the answer is success with that message as its payload, and the
    simulator is as the object's call left it. *)
Theorem get_dynamics_decodes (st : State) (req : GetObjectDynamicsRequest)
    (o : object) (d : gmap string pyval) (w : pybullet) (msg : ObjectDynamics) :
  pybullet_objects st !! gd_object_name req = Some o ->
  get_dynamics o (gd_link_idx req) (pb st) = (Returned d, w) ->
  dynamics_dict msg ⊆ d ->
  let r := service_get_pybullet_object_dynamics req st in
  gd_success <$> fst r = Returned true
  /\ object_dynamics <$> fst r = Returned (Some msg)
  /\ pb (snd r) = w.
Proof.
  intros Ho Hget Hsub. cbv zeta.
  unfold service_get_pybullet_object_dynamics. run.
  rewrite (contains_registered _ _ _ Ho). cbn [negb].
  rewrite (getitem_registered _ _ _ Ho).
  destruct (object_type_message_noisy st o "got pybullet object dynamics")
    as (m & st1 & -> & _ & _ & Hpb).
  cbn. rewrite Hpb, Hget.
  rewrite (dict_getitem_subseteq (dynamics_dict msg) d "mass" (mass msg) Hsub eq_refl).
  rewrite (dict_getitem_subseteq (dynamics_dict msg) d "lateralFriction" (lateral_friction msg) Hsub eq_refl).
  rewrite (dict_getitem_subseteq (dynamics_dict msg) d "localInertiaDiagonal" (local_inertia_diagonal msg) Hsub eq_refl).
  rewrite (dict_getitem_subseteq (dynamics_dict msg) d "restitution" (restitution msg) Hsub eq_refl).
  rewrite (dict_getitem_subseteq (dynamics_dict msg) d "rollingFriction" (rolling_friction msg) Hsub eq_refl).
  rewrite (dict_getitem_subseteq (dynamics_dict msg) d "spinningFriction" (spinning_friction msg) Hsub eq_refl).
  rewrite (dict_getitem_subseteq (dynamics_dict msg) d "contactDamping" (contact_damping msg) Hsub eq_refl).
  rewrite (dict_getitem_subseteq (dynamics_dict msg) d "contactStiffness" (contact_stiffness msg) Hsub eq_refl).
  rewrite (dict_getitem_subseteq (dynamics_dict msg) d "collisionMargin" (collision_margin msg) Hsub eq_refl).
  destruct msg; cbn. auto.
Qed.

(** When the dict of the object's [get_dynamics] lacks one of the nine keys,
    GetDynamics gives no answer: the lookup of the first key that is missing
    raises KeyError, which leaves the handler. *)
Theorem get_dynamics_missing_key (st : State) (req : GetObjectDynamicsRequest)
    (o : object) (d : gmap string pyval) (w : pybullet) (key : string) :
  pybullet_objects st !! gd_object_name req = Some o ->
  get_dynamics o (gd_link_idx req) (pb st) = (Returned d, w) ->
  key ∈ dynamics_keys ->
  d !! key = None ->
  exists missing,
    fst (service_get_pybullet_object_dynamics req st) = Raised (Exc KeyError missing)
    /\ missing ∈ dynamics_keys
    /\ d !! missing = None.
Proof.
  intros Ho Hget Hkey Hnone.
  unfold service_get_pybullet_object_dynamics. run.
  rewrite (contains_registered _ _ _ Ho). cbn [negb].
  rewrite (getitem_registered _ _ _ Ho).
  destruct (object_type_message_noisy st o "got pybullet object dynamics")
    as (m & st1 & -> & _ & _ & Hpb).
  cbn. rewrite Hpb, Hget. unfold dict_getitem.
  assert (forall k, In k dynamics_keys -> k ∈ dynamics_keys) as Hin.
  { intros k Hk. apply list_elem_of_In, Hk. }
  destruct (d !! "mass") eqn:?;
    [|cbn; eexists; repeat apply conj; [reflexivity | apply Hin; cbn; tauto | assumption]].
  destruct (d !! "lateralFriction") eqn:?;
    [|cbn; eexists; repeat apply conj; [reflexivity | apply Hin; cbn; tauto | assumption]].
  destruct (d !! "localInertiaDiagonal") eqn:?;
    [|cbn; eexists; repeat apply conj; [reflexivity | apply Hin; cbn; tauto | assumption]].
  destruct (d !! "restitution") eqn:?;
    [|cbn; eexists; repeat apply conj; [reflexivity | apply Hin; cbn; tauto | assumption]].
  destruct (d !! "rollingFriction") eqn:?;
    [|cbn; eexists; repeat apply conj; [reflexivity | apply Hin; cbn; tauto | assumption]].
  destruct (d !! "spinningFriction") eqn:?;
    [|cbn; eexists; repeat apply conj; [reflexivity | apply Hin; cbn; tauto | assumption]].
  destruct (d !! "contactDamping") eqn:?;
    [|cbn; eexists; repeat apply conj; [reflexivity | apply Hin; cbn; tauto | assumption]].
  destruct (d !! "contactStiffness") eqn:?;
    [|cbn; eexists; repeat apply conj; [reflexivity | apply Hin; cbn; tauto | assumption]].
  destruct (d !! "collisionMargin") eqn:?;
    [|cbn; eexists; repeat apply conj; [reflexivity | apply Hin; cbn; tauto | assumption]].
  exfalso. unfold dynamics_keys in Hkey.
  repeat (apply elem_of_cons in Hkey as [->|Hkey]; [congruence|]).
  apply elem_of_nil in Hkey. exact Hkey.
Qed.


(** [add_list] on a list in two parts is [add_list] on the first part and
    then, if that returned, on the second; an error in the first part stops
    the run there, with what was registered before it still registered. *)
Theorem add_list_app (files1 files2 : list string) (cls : object_class) (st : State) :
  add_list (files1 ++ files2) cls st =
  match add_list files1 cls st with
  | (Returned _, st1) => add_list files2 cls st1
  | (Raised e, st1) => (Raised e, st1)
  end.
Proof.
  revert st. induction files1 as [|file rest IH]; intros st; [reflexivity|].
  cbn [add_list app]. run.
  destruct (load_config file) as [config|e]; [|reflexivity].
  destruct (add config cls st) as [[[]|e] st1]; [apply IH|reflexivity].
Qed.

(** Adding an object and then deleting its name gives back the registry there
    was: [__delitem__] finds the object [add] registered, destroys that one,
    and unmaps the name. *)
Theorem add_then_delitem (st : State) (config : gmap string string)
    (cls : object_class) (name : string) (o : object) (w w' : pybullet) :
  config !! "name" = Some name ->
  pybullet_objects st !! name = None ->
  construct cls config (pb st) = (Returned o, w) ->
  destroy o w = (Returned tt, w') ->
  let r := delitem name (snd (add config cls st)) in
  fst r = Returned tt
  /\ pybullet_objects (snd r) = pybullet_objects st
  /\ pb (snd r) = w'.
Proof.
  intros Hname Hfresh Hnew Hgone. cbv zeta.
  rewrite add_cases, Hname, Hfresh, Hnew. cbn [snd].
  rewrite (delitem_destroyed _ name o w').
  - cbn. rewrite delete_insert_id by exact Hfresh. auto.
  - cbn. apply lookup_insert_eq.
  - exact Hgone.
Qed.

End MoreHandlerFacts.

(** ** The added facts on the reference implementation *)

Lemma add_then_getitem_witness :
  let config : gmap string string := {[ "name" := "box1" ]} in
  let st' := snd (PybulletObjects.add config PybulletCollisionObject fresh) in
  fst (PybulletObjects.add config PybulletCollisionObject fresh) = Returned tt
  /\ PybulletObjects.getitem "box1" st' = (Returned box1, st')
  /\ pb st' = {| Reference.bodies :=
                   {[ 0 := {| Reference.base_position := Reference.origin;
                              Reference.base_orientation := Reference.identity;
                              Reference.links := {[ 0 := Reference.default_dynamics ]} |} ]};
                 Reference.next_id := 1 |}
  /\ size (pybullet_objects st') = S (size (pybullet_objects fresh))
  /\ forall other, other <> "box1" ->
       pybullet_objects st' !! other = pybullet_objects fresh !! other.
Proof.
  apply (add_then_getitem fresh {[ "name" := "box1" ]} PybulletCollisionObject "box1" box1);
    reflexivity.
Defined.

Lemma add_twice_witness :
  let config : gmap string string := {[ "name" := "box1" ]} in
  let st' := snd (PybulletObjects.add config PybulletCollisionObject fresh) in
  PybulletObjects.add config PybulletVisualObject st'
  = (Raised (PybulletObjects.already_exists "box1"), st')
  /\ pybullet_objects st' !! "box1" = Some box1.
Proof.
  apply (add_twice fresh {[ "name" := "box1" ]} PybulletCollisionObject PybulletVisualObject
           "box1" box1
           {| Reference.bodies :=
                {[ 0 := {| Reference.base_position := Reference.origin;
                           Reference.base_orientation := Reference.identity;
                           Reference.links := {[ 0 := Reference.default_dynamics ]} |} ]};
              Reference.next_id := 1 |});
    reflexivity.
Defined.

Lemma add_filename_first_witness :
  service_add_pybullet_object
    {| pybullet_object := {| object_type := 1; filename := "box.yaml"; config := "box2" |} |}
    scene
  = service_add_pybullet_object
      {| pybullet_object := {| object_type := 1; filename := "box.yaml"; config := "" |} |}
      scene.
Proof. apply (add_filename_first scene 1 "box.yaml" "box2" ""). discriminate. Defined.

Lemma add_without_source_witness :
  service_add_pybullet_object
    {| pybullet_object := {| object_type := 3; filename := ""; config := "" |} |} scene
  = (Returned {| success := false;
                 message := "failed to add pybullet object, neither filename of config was given in request!" |},
     scene).
Proof. apply (add_without_source scene 3). lia. Defined.

Lemma add_load_fails_witness :
  service_add_pybullet_object
    {| pybullet_object := {| object_type := 1; filename := "box.yaml"; config := "" |} |} scene
  = (Returned {| success := false;
                 message := str (Exc ConfigLoadError "cannot read box.yaml") |},
     append_log (ERROR, LogStr (str (Exc ConfigLoadError "cannot read box.yaml")))
       (append_log (ERROR, LogTraceback (Exc ConfigLoadError "cannot read box.yaml")) scene)).
Proof.
  apply (add_load_fails scene 1 "box.yaml" "" (Exc ConfigLoadError "cannot read box.yaml")).
  - lia.
  - discriminate.
  - reflexivity.
Defined.

Lemma get_dynamics_decodes_witness :
  let r := service_get_pybullet_object_dynamics
             {| gd_object_name := "box1"; gd_link_idx := 0 |} scene in
  gd_success <$> fst r = Returned true
  /\ object_dynamics <$> fst r = Returned (Some default_message)
  /\ pb (snd r) = pb scene.
Proof.
  apply (get_dynamics_decodes scene {| gd_object_name := "box1"; gd_link_idx := 0 |}
           box1 Reference.default_dynamics (pb scene) default_message).
  - reflexivity.
  - reflexivity.
  - change (dynamics_dict default_message) with Reference.default_dynamics. reflexivity.
Defined.

Lemma get_dynamics_missing_key_witness :
  exists missing,
    fst (service_get_pybullet_object_dynamics
           {| gd_object_name := "box1"; gd_link_idx := 0 |} sparse)
    = Raised (Exc KeyError missing)
    /\ missing ∈ dynamics_keys
    /\ ({[ "mass" := PyFloat 1 ]} : gmap string pyval) !! missing = None.
Proof.
  apply (get_dynamics_missing_key sparse {| gd_object_name := "box1"; gd_link_idx := 0 |}
           box1 {[ "mass" := PyFloat 1 ]} (pb sparse) "restitution").
  - reflexivity.
  - reflexivity.
  - apply list_elem_of_In. cbn. tauto.
  - reflexivity.
Defined.

Example missing_key_is_the_first_read :
  fst (service_get_pybullet_object_dynamics
         {| gd_object_name := "box1"; gd_link_idx := 0 |} sparse)
  = Raised (Exc KeyError "lateralFriction").
Proof. reflexivity. Qed.

Lemma add_then_delitem_witness :
  let config : gmap string string := {[ "name" := "box1" ]} in
  let r := PybulletObjects.delitem "box1"
             (snd (PybulletObjects.add config PybulletCollisionObject fresh)) in
  fst r = Returned tt
  /\ pybullet_objects (snd r) = pybullet_objects fresh
  /\ pb (snd r) = {| Reference.bodies := ∅; Reference.next_id := 1 |}.
Proof.
  apply (add_then_delitem fresh {[ "name" := "box1" ]} PybulletCollisionObject "box1" box1
           {| Reference.bodies :=
                {[ 0 := {| Reference.base_position := Reference.origin;
                           Reference.base_orientation := Reference.identity;
                           Reference.links := {[ 0 := Reference.default_dynamics ]} |} ]};
              Reference.next_id := 1 |});
    reflexivity.
Defined.
